(** * Bot deployment to AWS Lambda and the LRU cache

A shallow embedding of

- [packages/server/src/fhir/operations/deploy.ts]: [deployLambda] and its
  helpers [createZipFile], [lambdaExists], [createLambda], [updateLambda]
  and [getLayerVersion];
- the [LRUCache] class.

Asynchronous functions are run in a small state-and-exception monad over
a [World] that holds the state of the remote platform, the log of the
requests sent through the client and the lines written to the logger.
The platform itself (the AWS SDK client), the static server configuration
and the zip serializer of JSZip are parameters of the development. *)

From Stdlib Require Import String Ascii List ZArith Bool Lia Arith.
From Stdlib Require Import DecimalString Sorted QArith Qround.
Import ListNotations.

Close Scope Q_scope.
Local Open Scope string_scope.
Local Open Scope list_scope.

(** ** JavaScript values used by the code *)

(** A thrown [Error]: its [name] and its [message]. *)
Record JsError : Type := mkJsError {
  errorName : string;
  errorMessage : string
}.

(** The [TypeError] of a property read on [undefined]. *)
Definition TypeError_undefined (property : string) : JsError :=
  mkJsError "TypeError"
    ("Cannot read properties of undefined (reading '" ++ property ++ "')").

(** Outcome of evaluating something that may throw. *)
Definition Completion (A : Type) : Type := (JsError + A)%type.

Definition threw {A : Type} (c : Completion A) : bool :=
  match c with inl _ => true | inr _ => false end.

(** [a === b] on values that are a string or [undefined]. *)
Definition strictEq (a b : option string) : bool :=
  match a, b with
  | Some x, Some y => String.eqb x y
  | None, None => true
  | _, _ => false
  end.

(** ** The AWS Lambda client interface

The fields the code reads or writes, with [option] for the fields the
SDK types declare optional ([undefined] when absent). *)
Module Lambda.

Inductive PackageType : Type := Zip | Image.

Record Layer : Type := { Arn : option string }.

Record FunctionConfiguration : Type := {
    FunctionName : option string;
    Runtime : option string;
    Handler : option string;
    Layers : option (list Layer)
  }.

Record LayerVersionsListItem : Type := { LayerVersionArn : option string }.

Module GetFunction.
Record Input : Type := { FunctionName : string }.
Record Output : Type := { Configuration : option FunctionConfiguration }.
End GetFunction.

Module GetFunctionConfiguration.
Record Input : Type := { FunctionName : string }.
End GetFunctionConfiguration.

Module ListLayerVersions.
Record Input : Type := { LayerName : string; MaxItems : Z }.
Record Output : Type := { LayerVersions : option (list LayerVersionsListItem) }.
End ListLayerVersions.

Module CreateFunction.
Record FunctionCode : Type := { ZipFile : list Byte.byte }.
Record Input : Type := {
    FunctionName : string;
    Role : string;
    Runtime : string;
    Handler : string;
    PackageType : Lambda.PackageType;
    Layers : list (option string);
    Code : FunctionCode;
    Publish : bool;
    Timeout : Z
  }.
End CreateFunction.

Module UpdateFunctionConfiguration.
Record Input : Type := {
    FunctionName : string;
    Role : string;
    Runtime : string;
    Handler : string;
    Layers : list (option string);
    Timeout : Z
  }.
End UpdateFunctionConfiguration.

Module UpdateFunctionCode.
Record Input : Type := {
    FunctionName : string;
    ZipFile : list Byte.byte;
    Publish : bool
  }.
End UpdateFunctionCode.

(** The commands that can be handed to [client.send]. *)
Inductive Command : Type :=
  | GetFunctionCommand (input : GetFunction.Input)
  | GetFunctionConfigurationCommand (input : GetFunctionConfiguration.Input)
  | CreateFunctionCommand (input : CreateFunction.Input)
  | UpdateFunctionConfigurationCommand (input : UpdateFunctionConfiguration.Input)
  | UpdateFunctionCodeCommand (input : UpdateFunctionCode.Input)
  | ListLayerVersionsCommand (input : ListLayerVersions.Input).

(** A platform behind the client: each command either rejects with an
    error or resolves with its output, and moves the platform to a new
    state. *)
Record LambdaClient (Remote : Type) : Type := {
    getFunction :
      GetFunction.Input -> Remote -> Completion GetFunction.Output * Remote;
    getFunctionConfiguration :
      GetFunctionConfiguration.Input -> Remote ->
      Completion FunctionConfiguration * Remote;
    createFunction :
      CreateFunction.Input -> Remote -> Completion FunctionConfiguration * Remote;
    updateFunctionConfiguration :
      UpdateFunctionConfiguration.Input -> Remote ->
      Completion FunctionConfiguration * Remote;
    updateFunctionCode :
      UpdateFunctionCode.Input -> Remote -> Completion FunctionConfiguration * Remote;
    listLayerVersions :
      ListLayerVersions.Input -> Remote -> Completion ListLayerVersions.Output * Remote
  }.

Arguments getFunction {Remote}.
Arguments getFunctionConfiguration {Remote}.
Arguments createFunction {Remote}.
Arguments updateFunctionConfiguration {Remote}.
Arguments updateFunctionCode {Remote}.
Arguments listLayerVersions {Remote}.

Definition isCreateFunction (c : Command) : bool :=
  match c with CreateFunctionCommand _ => true | _ => false end.

Definition isUpdateFunctionConfiguration (c : Command) : bool :=
  match c with UpdateFunctionConfigurationCommand _ => true | _ => false end.

Definition isUpdateFunctionCode (c : Command) : bool :=
  match c with UpdateFunctionCodeCommand _ => true | _ => false end.

Definition isGetFunctionConfiguration (c : Command) : bool :=
  match c with GetFunctionConfigurationCommand _ => true | _ => false end.

End Lambda.

(** ** JSZip

The archive under construction is the ordered collection of its named
entries; [file] adds an entry, or replaces the data of the entry with the
same name.  The serializer [generateAsync] belongs to the library and is
a parameter below. *)
Module JSZip.

Definition t : Type := list (string * string).

Definition new : t := [].

Fixpoint file (name data : string) (zip : t) : t :=
  match zip with
  | [] => [(name, data)]
  | (n, d) :: rest =>
      if String.eqb n name then (name, data) :: rest
      else (n, d) :: file name data rest
  end.

Definition names (zip : t) : list string := map fst zip.

Fixpoint read (name : string) (zip : t) : option string :=
  match zip with
  | [] => None
  | (n, d) :: rest => if String.eqb n name then Some d else read name rest
  end.

End JSZip.

(** ** Constants of deploy.ts *)

Definition LAMBDA_RUNTIME : string := "nodejs16.x".

Definition LAMBDA_HANDLER : string := "index.handler".

Definition dq : string := String "034"%char EmptyString.

Definition nl : string := String "010"%char EmptyString.

Definition unlines (ls : list string) : string :=
  fold_right (fun l acc => (l ++ nl ++ acc)%string) "" ls.

(** The text of the template literal; its [\\n] is a backslash and an [n]. *)
Definition WRAPPER_CODE : string := unlines ([
  "const { Hl7Message, MedplumClient } = require(" ++ dq ++ "@medplum/core" ++ dq ++ ");";
  "const fetch = require(" ++ dq ++ "node-fetch" ++ dq ++ ");";
  "const userCode = require(" ++ dq ++ "./user.js" ++ dq ++ ");";
  "";
  "exports.handler = async (event, context) => {";
  "  const { accessToken, input, contentType } = event;";
  "  const medplum = new MedplumClient({ fetch });";
  "  medplum.setAccessToken(accessToken);";
  "  try {";
  "    return await userCode.handler(medplum, {";
  "      input:";
  "        contentType === " ++ dq ++ "x-application/hl7-v2+er7" ++ dq;
  "          ? Hl7Message.parse(input)";
  "          : input,";
  "      contentType,";
  "    });";
  "  } catch (err) {";
  "    if (err instanceof Error) {";
  "      console.log(" ++ dq ++ "Unhandled error: " ++ dq ++ " + err.message + "
    ++ dq ++ "\n" ++ dq ++ " + err.stack);";
  "    } else {";
  "      console.log(" ++ dq ++ "Unhandled error: " ++ dq ++ " + err);";
  "    }";
  "    throw err;";
  "  }";
  "};"
]%string)%list.

(** The two settings of the server configuration that the code reads. *)
Record MedplumServerConfig : Type := {
  botLambdaRoleArn : string;
  botLambdaLayerName : string
}.

(** ** The world an asynchronous function runs in *)

(** A request handed to [client.send], and whether its promise resolved
  (the platform acknowledged it) or rejected. *)
Record Exchange : Type := {
  request : Lambda.Command;
  acknowledged : bool
}.

Inductive LogLevel : Type := INFO | DEBUG.

Record World (Remote : Type) : Type := {
  remote : Remote;
  sent : list Exchange;
  logged : list (LogLevel * string)
}.

Arguments remote {Remote}.
Arguments sent {Remote}.
Arguments logged {Remote}.

(** An awaited computation: it runs in a world and either throws or returns. *)
Definition Promise (Remote A : Type) : Type :=
  World Remote -> Completion A * World Remote.

Definition resolve {Remote A} (a : A) : Promise Remote A :=
  fun w => (inr a, w).

Definition reject {Remote A} (e : JsError) : Promise Remote A :=
  fun w => (inl e, w).

Definition settle {Remote A} (c : Completion A) : Promise Remote A :=
  fun w => (c, w).

Definition await {Remote A B} (p : Promise Remote A) (k : A -> Promise Remote B)
  : Promise Remote B :=
  fun w =>
    match p w with
    | (inr a, w') => k a w'
    | (inl e, w') => (inl e, w')
    end.

Definition tryCatch {Remote A} (body : Promise Remote A)
  (handler : JsError -> Promise Remote A) : Promise Remote A :=
  fun w =>
    match body w with
    | (inr a, w') => (inr a, w')
    | (inl e, w') => handler e w'
    end.

Notation "x <- p ;; k" := (await p (fun x => k))
  (at level 61, p at next level, right associativity).
Notation "p ;;; k" := (await p (fun _ => k))
  (at level 61, right associativity).

(** [String(n)] for a length. *)
Definition numberToString (n : nat) : string :=
  NilZero.string_of_uint (Nat.to_uint n).

(** The requests sent in [w'] since [w]. *)
Definition sentSince {Remote} (w w' : World Remote) : list Exchange :=
  skipn (length (sent w)) (sent w').

Definition requestsSince {Remote} (w w' : World Remote) : list Lambda.Command :=
  map request (sentSince w w').

(** ** deploy.ts *)
Section Deploy.

Context {Remote : Type}.

(** [client]: the [LambdaClient] handed to every function. *)
Variable client : Lambda.LambdaClient Remote.

(** [getConfig()]: the static server configuration. *)
Variable getConfig : MedplumServerConfig.

(** [zip.generateAsync({ type: 'uint8array' })] of JSZip. *)
Variable generateAsync : JSZip.t -> Completion (list Byte.byte).

(** [client.send(command)]: the platform answers and the exchange is
    recorded. *)
Definition send {I O : Type}
  (operation : I -> Remote -> Completion O * Remote)
  (command : I -> Lambda.Command) (input : I) : Promise Remote O :=
  fun w =>
    let '(answer, remote') := operation input (remote w) in
    (answer,
     {| remote := remote';
        sent := sent w ++ [{| request := command input;
                              acknowledged := negb (threw answer) |}];
        logged := logged w |}).

Definition logger (level : LogLevel) (message : string) : Promise Remote unit :=
  fun w =>
    (inr tt,
     {| remote := remote w;
        sent := sent w;
        logged := logged w ++ [(level, message)] |}).

(** [response.LayerVersions?.[0].LayerVersionArn]: an absent list
    short-circuits the chain to [undefined]; on an empty list element 0 is
    [undefined] and the property read throws. *)
Definition firstLayerVersionArn (response : Lambda.ListLayerVersions.Output)
  : Completion (option string) :=
  match Lambda.ListLayerVersions.LayerVersions response with
  | None => inr None
  | Some [] => inl (TypeError_undefined "LayerVersionArn")
  | Some (item :: _) => inr (Lambda.LayerVersionArn item)
  end.

(** [functionConfig.Layers?.[0].Arn] *)
Definition firstLayerArn (functionConfig : Lambda.FunctionConfiguration)
  : Completion (option string) :=
  match Lambda.Layers functionConfig with
  | None => inr None
  | Some [] => inl (TypeError_undefined "Arn")
  | Some (layer :: _) => inr (Lambda.Arn layer)
  end.

Definition listLayerVersionsInput : Lambda.ListLayerVersions.Input :=
  {| Lambda.ListLayerVersions.LayerName := botLambdaLayerName getConfig;
     Lambda.ListLayerVersions.MaxItems := 1 |}.

Definition getLayerVersion : Promise Remote (option string) :=
  response <- send (Lambda.listLayerVersions client)
                Lambda.ListLayerVersionsCommand listLayerVersionsInput ;;
  settle (firstLayerVersionArn response).

Definition createZipFile (code : string) : Promise Remote (list Byte.byte) :=
  let zip := JSZip.new in
  let zip := JSZip.file "user.js" code zip in
  let zip := JSZip.file "index.js" WRAPPER_CODE zip in
  settle (generateAsync zip).

(** [response.Configuration?.FunctionName] *)
Definition reportedFunctionName (response : Lambda.GetFunction.Output)
  : option string :=
  match Lambda.GetFunction.Configuration response with
  | None => None
  | Some configuration => Lambda.FunctionName configuration
  end.

Definition lambdaExists (name : string) : Promise Remote bool :=
  tryCatch
    (let command := {| Lambda.GetFunction.FunctionName := name |} in
     response <- send (Lambda.getFunction client)
                   Lambda.GetFunctionCommand command ;;
     resolve (strictEq (reportedFunctionName response) (Some name)))
    (fun err => resolve false).

(** The three command inputs, as the object literals of the code. *)
Definition createFunctionInput (name : string) (zipFile : list Byte.byte)
  (layerVersion : option string) : Lambda.CreateFunction.Input :=
  {| Lambda.CreateFunction.FunctionName := name;
     Lambda.CreateFunction.Role := botLambdaRoleArn getConfig;
     Lambda.CreateFunction.Runtime := LAMBDA_RUNTIME;
     Lambda.CreateFunction.Handler := LAMBDA_HANDLER;
     Lambda.CreateFunction.PackageType := Lambda.Zip;
     Lambda.CreateFunction.Layers := [layerVersion];
     Lambda.CreateFunction.Code :=
       {| Lambda.CreateFunction.ZipFile := zipFile |};
     Lambda.CreateFunction.Publish := true;
     Lambda.CreateFunction.Timeout := 10 |}.

Definition updateFunctionConfigurationInput (name : string)
  (layerVersion : option string) : Lambda.UpdateFunctionConfiguration.Input :=
  {| Lambda.UpdateFunctionConfiguration.FunctionName := name;
     Lambda.UpdateFunctionConfiguration.Role := botLambdaRoleArn getConfig;
     Lambda.UpdateFunctionConfiguration.Runtime := LAMBDA_RUNTIME;
     Lambda.UpdateFunctionConfiguration.Handler := LAMBDA_HANDLER;
     Lambda.UpdateFunctionConfiguration.Layers := [layerVersion];
     Lambda.UpdateFunctionConfiguration.Timeout := 10 |}.

Definition updateFunctionCodeInput (name : string) (zipFile : list Byte.byte)
  : Lambda.UpdateFunctionCode.Input :=
  {| Lambda.UpdateFunctionCode.FunctionName := name;
     Lambda.UpdateFunctionCode.ZipFile := zipFile;
     Lambda.UpdateFunctionCode.Publish := true |}.

Definition createLambda (name : string) (zipFile : list Byte.byte)
  : Promise Remote unit :=
  layerVersion <- getLayerVersion ;;
  send (Lambda.createFunction client) Lambda.CreateFunctionCommand
    (createFunctionInput name zipFile layerVersion) ;;;
  resolve tt.

(** The condition of the [if] in [updateLambda]; [||] evaluates its right
    operand only when the left one is false. *)
Definition configurationDiffers
  (functionConfig : Lambda.FunctionConfiguration) (layerVersion : option string)
  : Completion bool :=
  if negb (strictEq (Lambda.Runtime functionConfig) (Some LAMBDA_RUNTIME))
  then inr true
  else if negb (strictEq (Lambda.Handler functionConfig) (Some LAMBDA_HANDLER))
  then inr true
  else
    match firstLayerArn functionConfig with
    | inl err => inl err
    | inr arn => inr (negb (strictEq arn layerVersion))
    end.

Definition updateLambda (name : string) (zipFile : list Byte.byte)
  : Promise Remote unit :=
  layerVersion <- getLayerVersion ;;
  functionConfig <- send (Lambda.getFunctionConfiguration client)
                      Lambda.GetFunctionConfigurationCommand
                      {| Lambda.GetFunctionConfiguration.FunctionName := name |} ;;
  differs <- settle (configurationDiffers functionConfig layerVersion) ;;
  (if differs
   then send (Lambda.updateFunctionConfiguration client)
          Lambda.UpdateFunctionConfigurationCommand
          (updateFunctionConfigurationInput name layerVersion) ;;;
        resolve tt
   else resolve tt) ;;;
  send (Lambda.updateFunctionCode client) Lambda.UpdateFunctionCodeCommand
    (updateFunctionCodeInput name zipFile) ;;;
  resolve tt.

Definition deployLambda (name code : string) : Promise Remote unit :=
  logger INFO ("Deploying lambda function for bot: " ++ name) ;;;
  zipFile <- createZipFile code ;;
  logger DEBUG ("Lambda function zip size: " ++ numberToString (length zipFile)) ;;;
  exists_ <- lambdaExists name ;;
  if negb exists_
  then createLambda name zipFile
  else updateLambda name zipFile.

End Deploy.

(** ** The JavaScript [Map] with string keys

Entries are kept in insertion order; [set] on a key that is present
changes the value in place, [set] on a new key appends. *)
Module JSMap.
Section WithValues.

Context {V : Type}.

Definition t : Type := list (string * V).

Definition empty : t := [].

Fixpoint get (key : string) (m : t) : option V :=
  match m with
  | [] => None
  | (k, v) :: rest => if String.eqb k key then Some v else get key rest
  end.

Definition has (key : string) (m : t) : bool :=
  existsb (fun entry => String.eqb (fst entry) key) m.

Definition delete (key : string) (m : t) : t :=
  filter (fun entry => negb (String.eqb (fst entry) key)) m.

Fixpoint set (key : string) (val : V) (m : t) : t :=
  match m with
  | [] => [(key, val)]
  | (k, v) :: rest =>
      if String.eqb k key then (key, val) :: rest
      else (k, v) :: set key val rest
  end.

Definition size (m : t) : Z := Z.of_nat (length m).

Definition keys (m : t) : list string := map fst m.

End WithValues.
Arguments t : clear implicits.
End JSMap.

(** ** JavaScript numbers

    A number is a finite double, an infinity or NaN.  Every finite double is
    a rational, and the numbers are compared as the rationals they are; the
    model takes any rational for a finite number, which leaves out no
    double. *)
Module JsNumber.

Inductive t : Type :=
  | Finite (q : Q)
  | PosInfinity
  | NegInfinity
  | NaN.

(** An integer as a number. *)
Definition ofZ (n : Z) : t := Finite (inject_Z n).

(** [a >= b]: false as soon as one side is NaN. *)
Definition geb (a b : t) : bool :=
  match a, b with
  | NaN, _ | _, NaN => false
  | Finite x, Finite y => Qle_bool y x
  | PosInfinity, _ => true
  | _, NegInfinity => true
  | _, _ => false
  end.

End JsNumber.

(** ** The LRU cache *)
Module LRUCache.
Section WithValues.

(** The type of the cached values, and [ToBoolean] on it (the test of
    [if (item)]). *)
Variable T : Type.
Variable truthy : T -> bool.

(** [max] is a number: nothing in the class makes it an integer. *)
Record LRUCache : Type := {
    max : JsNumber.t;
    cache : JSMap.t T
  }.

(** [new LRUCache(max)], with the default [max = 10]. *)
Definition new (max : option JsNumber.t) : LRUCache :=
  {| max := match max with Some n => n | None => JsNumber.ofZ 10 end;
     cache := JSMap.empty |}.

(** [this.cache.keys().next().value]: [undefined] on an empty map. *)
Definition first (this : LRUCache) : option string :=
  match JSMap.keys (cache this) with
  | [] => None
  | key :: _ => Some key
  end.

Definition get (key : string) (this : LRUCache) : option T * LRUCache :=
  let item := JSMap.get key (cache this) in
  match item with
  | Some val =>
      if truthy val
      then (item,
            {| max := max this;
               cache := JSMap.set key val (JSMap.delete key (cache this)) |})
      else (item, this)
  | None => (item, this)
  end.

Definition set (key : string) (val : T) (this : LRUCache) : LRUCache :=
  let cache1 :=
    if JSMap.has key (cache this) then JSMap.delete key (cache this)
    else if JsNumber.geb (JsNumber.ofZ (JSMap.size (cache this))) (max this)
    then match first this with
         | Some oldest => JSMap.delete oldest (cache this)
         | None => cache this
         end
    else cache this in
  {| max := max this; cache := JSMap.set key val cache1 |}.

(** A call on the cache, and the run of a sequence of calls. *)
Inductive Operation : Type :=
  | OpGet (key : string)
  | OpSet (key : string) (val : T).

Definition perform (this : LRUCache) (op : Operation) : LRUCache :=
  match op with
  | OpGet key => snd (get key this)
  | OpSet key val => set key val this
  end.

Definition run (ops : list Operation) (this : LRUCache) : LRUCache :=
  fold_left perform ops this.

(** *** Recency, in the words of the name of the class

The key an operation uses; the age of a key is the number of
operations since its last use; the least recently used key among the
stored ones is the one of greatest age. *)
Definition usedKey (op : Operation) : string :=
  match op with OpGet key => key | OpSet key _ => key end.

Fixpoint age (latestFirst : list Operation) (key : string) : nat :=
  match latestFirst with
  | [] => 0
  | op :: earlier =>
      if String.eqb (usedKey op) key then 0 else S (age earlier key)
  end.

Fixpoint oldestOf (ageOf : string -> nat) (stored : list string) : option string :=
  match stored with
  | [] => None
  | key :: rest =>
      match oldestOf ageOf rest with
      | Some other => if Nat.ltb (ageOf key) (ageOf other) then Some other else Some key
      | None => Some key
      end
  end.

Definition leastRecentlyUsed (history : list Operation) (this : LRUCache)
  : option string :=
  oldestOf (age (rev history)) (JSMap.keys (cache this)).

End WithValues.

Arguments max {T}.
Arguments cache {T}.
Arguments new {T}.
Arguments first {T}.
Arguments get {T}.
Arguments set {T}.
Arguments perform {T}.
Arguments run {T}.
Arguments OpGet {T}.
Arguments OpSet {T}.
Arguments usedKey {T}.
Arguments age {T}.
Arguments leastRecentlyUsed {T}.

(** The number of entries a cache of capacity [max] can reach: [max]
    rounded up, and one at least; none when [size >= max] never holds. *)
Definition sizeBound (max : JsNumber.t) : option Z :=
  match max with
  | JsNumber.Finite q => Some (Z.max 1 (Qceiling q))
  | JsNumber.NegInfinity => Some 1%Z
  | JsNumber.PosInfinity | JsNumber.NaN => None
  end.

(** The stored keys are listed from the least to the most recently used:
    each key is older than all the keys after it. *)
Definition oldestFirst (ageOf : string -> nat) (stored : list string) : Prop :=
  StronglySorted (fun earlier later => ageOf later < ageOf earlier) stored.

(** A history is within the values on which [if (item)] tells a hit from a
    miss when every value it stores is truthy. *)
Definition storesTruthy {T : Type} (truthy : T -> bool) (history : list (Operation T))
  : Prop :=
  Forall (fun op => match op with
                    | OpSet _ val => truthy val = true
                    | OpGet _ => True
                    end) history.

(** The state of a cache that has been stored truthy values only: its keys
    are from the least to the most recently used, and its values are
    truthy. *)
Definition ordered {T : Type} (truthy : T -> bool) (history : list (Operation T))
  (this : LRUCache T) : Prop :=
  oldestFirst (age (rev history)) (JSMap.keys (cache this)) /\
  Forall (fun entry => truthy (snd entry) = true) (cache this).

(** Numbers as values: [0] is the falsy one. *)
Definition truthyNumber (n : Z) : bool := negb (n =? 0)%Z.

End LRUCache.

(** ** Scripted platforms, for the scenarios

A platform without state that gives each command a fixed answer. *)
Module Scripted.

Record Script : Type := {
    onGetFunction : Completion Lambda.GetFunction.Output;
    onGetFunctionConfiguration : Completion Lambda.FunctionConfiguration;
    onCreateFunction : Completion Lambda.FunctionConfiguration;
    onUpdateFunctionConfiguration : Completion Lambda.FunctionConfiguration;
    onUpdateFunctionCode : Completion Lambda.FunctionConfiguration;
    onListLayerVersions : Completion Lambda.ListLayerVersions.Output
  }.

Definition client (script : Script) : Lambda.LambdaClient unit :=
  {| Lambda.getFunction := fun _ r => (onGetFunction script, r);
     Lambda.getFunctionConfiguration :=
       fun _ r => (onGetFunctionConfiguration script, r);
     Lambda.createFunction := fun _ r => (onCreateFunction script, r);
     Lambda.updateFunctionConfiguration :=
       fun _ r => (onUpdateFunctionConfiguration script, r);
     Lambda.updateFunctionCode := fun _ r => (onUpdateFunctionCode script, r);
     Lambda.listLayerVersions := fun _ r => (onListLayerVersions script, r) |}.

Definition start : World unit := {| remote := tt; sent := []; logged := [] |}.

Definition config : MedplumServerConfig :=
  {| botLambdaRoleArn := "arn:aws:iam::123456789012:role/bot-lambda";
     botLambdaLayerName := "medplum-bots" |}.

Definition layerArn (version : string) : string :=
  "arn:aws:lambda:us-east-1:123456789012:layer:medplum-bots:" ++ version.

Definition latest : string := layerArn "7".

Definition previous : string := layerArn "6".

(** The archive of the scenarios that call the paths directly. *)
Definition archive : list Byte.byte := [Byte.x50; Byte.x4b; Byte.x03; Byte.x04].

(** A configuration with the name, the runtime and the layers given, and
    the handler of [createLambda]. *)
Definition configuration (name runtime : string) (layers : option (list Lambda.Layer))
  : Lambda.FunctionConfiguration :=
  {| Lambda.FunctionName := Some name;
     Lambda.Runtime := Some runtime;
     Lambda.Handler := Some LAMBDA_HANDLER;
     Lambda.Layers := layers |}.

Definition attached (arn : string) : option (list Lambda.Layer) :=
  Some [{| Lambda.Arn := Some arn |}].

Definition layerVersions (arns : list string) : Lambda.ListLayerVersions.Output :=
  {| Lambda.ListLayerVersions.LayerVersions :=
       Some (map (fun arn => {| Lambda.LayerVersionArn := Some arn |}) arns) |}.

Definition notFound : JsError :=
  mkJsError "ResourceNotFoundException" "Function not found".

Definition conflict : JsError :=
  mkJsError "ResourceConflictException" "An update is in progress".

(** A function with the configuration [functionConfig] exists; the layer has
    the versions [versions], latest first; every request is acknowledged,
    but for a creation. *)
Definition deployed (functionConfig : Lambda.FunctionConfiguration)
  (versions : list string) : Script :=
  {| onGetFunction :=
       inr {| Lambda.GetFunction.Configuration := Some functionConfig |};
     onGetFunctionConfiguration := inr functionConfig;
     onCreateFunction := inl conflict;
     onUpdateFunctionConfiguration := inr functionConfig;
     onUpdateFunctionCode := inr functionConfig;
     onListLayerVersions := inr (layerVersions versions) |}.

(** The same, on a platform that rejects configuration updates. *)
Definition deployedBusy (functionConfig : Lambda.FunctionConfiguration)
  (versions : list string) : Script :=
  {| onGetFunction :=
       inr {| Lambda.GetFunction.Configuration := Some functionConfig |};
     onGetFunctionConfiguration := inr functionConfig;
     onCreateFunction := inl conflict;
     onUpdateFunctionConfiguration := inl conflict;
     onUpdateFunctionCode := inr functionConfig;
     onListLayerVersions := inr (layerVersions versions) |}.

(** No function exists yet. *)
Definition absent (name : string) (versions : list string) : Script :=
  {| onGetFunction := inl notFound;
     onGetFunctionConfiguration := inl notFound;
     onCreateFunction := inr (configuration name LAMBDA_RUNTIME None);
     onUpdateFunctionConfiguration := inl notFound;
     onUpdateFunctionCode := inl notFound;
     onListLayerVersions := inr (layerVersions versions) |}.

(** The function exists, but the probe is rejected (the caller may not read
    it), and so is the creation. *)
Definition hidden (versions : list string) : Script :=
  {| onGetFunction := inl (mkJsError "AccessDeniedException" "Not authorized");
     onGetFunctionConfiguration := inl notFound;
     onCreateFunction := inl conflict;
     onUpdateFunctionConfiguration := inl notFound;
     onUpdateFunctionCode := inl notFound;
     onListLayerVersions := inr (layerVersions versions) |}.

(** No function exists, and the answer to the list query has no list. *)
Definition unlisted (name : string) : Script :=
  {| onGetFunction := inl notFound;
     onGetFunctionConfiguration := inl notFound;
     onCreateFunction := inr (configuration name LAMBDA_RUNTIME None);
     onUpdateFunctionConfiguration := inl notFound;
     onUpdateFunctionCode := inl notFound;
     onListLayerVersions :=
       inr {| Lambda.ListLayerVersions.LayerVersions := None |} |}.

(** A serializer for the scenarios: the entries one after the other, each
    name and each data followed by a zero byte. *)
Definition bytesOf (s : string) : list Byte.byte :=
  list_byte_of_string s ++ [Byte.x00].

Definition store (zip : JSZip.t) : Completion (list Byte.byte) :=
  inr (flat_map (fun entry => bytesOf (fst entry) ++ bytesOf (snd entry)) zip).

Definition brokenZip : JsError :=
  mkJsError "Error" "Can't read the data of 'user.js'".

Definition failing (zip : JSZip.t) : Completion (list Byte.byte) :=
  inl brokenZip.

Definition userCode : string :=
  "exports.handler = async (medplum, event) => event.input;".

(** The archive [store] makes of [code] and the wrapper. *)
Definition packaged (code : string) : list Byte.byte :=
  match store [("user.js", code); ("index.js", WRAPPER_CODE)] with
  | inr bytes => bytes
  | inl _ => []
  end.

(** The requests of the scenarios. *)
Definition listQuery : Lambda.Command :=
  Lambda.ListLayerVersionsCommand
    {| Lambda.ListLayerVersions.LayerName := "medplum-bots";
       Lambda.ListLayerVersions.MaxItems := 1 |}.

Definition probe (name : string) : Lambda.Command :=
  Lambda.GetFunctionCommand {| Lambda.GetFunction.FunctionName := name |}.

Definition configurationQuery (name : string) : Lambda.Command :=
  Lambda.GetFunctionConfigurationCommand
    {| Lambda.GetFunctionConfiguration.FunctionName := name |}.

Definition creation (name : string) (zipFile : list Byte.byte) (layer : string)
  : Lambda.Command :=
  Lambda.CreateFunctionCommand
    {| Lambda.CreateFunction.FunctionName := name;
       Lambda.CreateFunction.Role := "arn:aws:iam::123456789012:role/bot-lambda";
       Lambda.CreateFunction.Runtime := "nodejs16.x";
       Lambda.CreateFunction.Handler := "index.handler";
       Lambda.CreateFunction.PackageType := Lambda.Zip;
       Lambda.CreateFunction.Layers := [Some layer];
       Lambda.CreateFunction.Code := {| Lambda.CreateFunction.ZipFile := zipFile |};
       Lambda.CreateFunction.Publish := true;
       Lambda.CreateFunction.Timeout := 10 |}.

Definition configurationUpdate (name layer : string) : Lambda.Command :=
  Lambda.UpdateFunctionConfigurationCommand
    {| Lambda.UpdateFunctionConfiguration.FunctionName := name;
       Lambda.UpdateFunctionConfiguration.Role :=
         "arn:aws:iam::123456789012:role/bot-lambda";
       Lambda.UpdateFunctionConfiguration.Runtime := "nodejs16.x";
       Lambda.UpdateFunctionConfiguration.Handler := "index.handler";
       Lambda.UpdateFunctionConfiguration.Layers := [Some layer];
       Lambda.UpdateFunctionConfiguration.Timeout := 10 |}.

Definition codeUpdate (name : string) (zipFile : list Byte.byte) : Lambda.Command :=
  Lambda.UpdateFunctionCodeCommand
    {| Lambda.UpdateFunctionCode.FunctionName := name;
       Lambda.UpdateFunctionCode.ZipFile := zipFile;
       Lambda.UpdateFunctionCode.Publish := true |}.

Definition ok (command : Lambda.Command) : Exchange :=
  {| request := command; acknowledged := true |}.

End Scripted.

(** ** The configuration comparison, in the words of the specification

The attached layer reference that is compared is the one of the first
attached layer; a function without attached layers has none.  The
configuration is to be updated when the runtime identifier, the
entry-point identifier or that layer reference is not the desired one. *)
Definition attachedLayerReference (functionConfig : Lambda.FunctionConfiguration)
  : option string :=
  match Lambda.Layers functionConfig with
  | Some (layer :: _) => Lambda.Arn layer
  | _ => None
  end.

Definition differsFromDesired (functionConfig : Lambda.FunctionConfiguration)
  (layerVersion : option string) : Prop :=
  Lambda.Runtime functionConfig <> Some LAMBDA_RUNTIME \/
  Lambda.Handler functionConfig <> Some LAMBDA_HANDLER \/
  attachedLayerReference functionConfig <> layerVersion.


(** ** The runs of a deployment, as logs of exchanges

    An exchange is a request with the answer it got; a request of the
    deployment of [name] with the archive [zipFile] addresses that function,
    or lists the versions of the layer of the configuration. *)
Definition exchanged (acknowledged : bool) (command : Lambda.Command) : Exchange :=
  {| request := command; acknowledged := acknowledged |}.

Section Outcomes.

Variable getConfig : MedplumServerConfig.
Variable name : string.
Variable zipFile : list Byte.byte.

Definition belongsToDeployment (command : Lambda.Command) : Prop :=
  match command with
  | Lambda.GetFunctionCommand input =>
      input = {| Lambda.GetFunction.FunctionName := name |}
  | Lambda.GetFunctionConfigurationCommand input =>
      input = {| Lambda.GetFunctionConfiguration.FunctionName := name |}
  | Lambda.ListLayerVersionsCommand input =>
      input = listLayerVersionsInput getConfig
  | Lambda.CreateFunctionCommand input =>
      exists layerVersion,
        input = createFunctionInput getConfig name zipFile layerVersion
  | Lambda.UpdateFunctionConfigurationCommand input =>
      exists layerVersion,
        input = updateFunctionConfigurationInput getConfig name layerVersion
  | Lambda.UpdateFunctionCodeCommand input =>
      input = updateFunctionCodeInput name zipFile
  end.

Definition listRequest : Lambda.Command :=
  Lambda.ListLayerVersionsCommand (listLayerVersionsInput getConfig).

Definition probeRequest : Lambda.Command :=
  Lambda.GetFunctionCommand {| Lambda.GetFunction.FunctionName := name |}.

Definition configurationRequest : Lambda.Command :=
  Lambda.GetFunctionConfigurationCommand
    {| Lambda.GetFunctionConfiguration.FunctionName := name |}.

Definition createRequest (layerVersion : option string) : Lambda.Command :=
  Lambda.CreateFunctionCommand
    (createFunctionInput getConfig name zipFile layerVersion).

Definition reconfigureRequest (layerVersion : option string) : Lambda.Command :=
  Lambda.UpdateFunctionConfigurationCommand
    (updateFunctionConfigurationInput getConfig name layerVersion).

Definition codeRequest : Lambda.Command :=
  Lambda.UpdateFunctionCodeCommand (updateFunctionCodeInput name zipFile).

(** The ways a [createLambda] ends: its result and the exchanges it had. *)
Inductive createOutcome : Completion unit -> list Exchange -> Prop :=
  | create_list_rejected err :
      createOutcome (inl err) [exchanged false listRequest]
  | create_no_version :
      createOutcome (inl (TypeError_undefined "LayerVersionArn"))
        [exchanged true listRequest]
  | create_rejected layerVersion err :
      createOutcome (inl err)
        [exchanged true listRequest; exchanged false (createRequest layerVersion)]
  | create_done layerVersion :
      createOutcome (inr tt)
        [exchanged true listRequest; exchanged true (createRequest layerVersion)].

(** The ways an [updateLambda] ends. *)
Inductive updateOutcome : Completion unit -> list Exchange -> Prop :=
  | update_list_rejected err :
      updateOutcome (inl err) [exchanged false listRequest]
  | update_no_version :
      updateOutcome (inl (TypeError_undefined "LayerVersionArn"))
        [exchanged true listRequest]
  | update_query_rejected err :
      updateOutcome (inl err)
        [exchanged true listRequest; exchanged false configurationRequest]
  | update_comparison_throws :
      updateOutcome (inl (TypeError_undefined "Arn"))
        [exchanged true listRequest; exchanged true configurationRequest]
  | update_configuration_rejected layerVersion err :
      updateOutcome (inl err)
        [exchanged true listRequest; exchanged true configurationRequest;
         exchanged false (reconfigureRequest layerVersion)]
  | update_reconfigured_code_rejected layerVersion err :
      updateOutcome (inl err)
        [exchanged true listRequest; exchanged true configurationRequest;
         exchanged true (reconfigureRequest layerVersion);
         exchanged false codeRequest]
  | update_reconfigured_done layerVersion :
      updateOutcome (inr tt)
        [exchanged true listRequest; exchanged true configurationRequest;
         exchanged true (reconfigureRequest layerVersion);
         exchanged true codeRequest]
  | update_code_rejected err :
      updateOutcome (inl err)
        [exchanged true listRequest; exchanged true configurationRequest;
         exchanged false codeRequest]
  | update_done :
      updateOutcome (inr tt)
        [exchanged true listRequest; exchanged true configurationRequest;
         exchanged true codeRequest].

(** The ways a [deployLambda] ends once its archive is built: the probe,
    whatever its answer for a creation, acknowledged for an update, and then
    the path. *)
Inductive deployOutcome : Completion unit -> list Exchange -> Prop :=
  | deploy_creates ack outcome log :
      createOutcome outcome log ->
      deployOutcome outcome (exchanged ack probeRequest :: log)
  | deploy_updates outcome log :
      updateOutcome outcome log ->
      deployOutcome outcome (exchanged true probeRequest :: log).

End Outcomes.


(** * Properties *)

(** ** Strict equality and the request log *)

Lemma strictEq_spec (a b : option string) : strictEq a b = true <-> a = b.
Proof.
  destruct a as [x|], b as [y|]; simpl; try (split; congruence).
  rewrite String.eqb_eq. split; congruence.
Qed.

Lemma strictEq_false (a b : option string) : strictEq a b = false <-> a <> b.
Proof.
  rewrite <- strictEq_spec. destruct (strictEq a b); split; congruence.
Qed.

Lemma negb_strictEq (a b : option string) : negb (strictEq a b) = true <-> a <> b.
Proof. rewrite negb_true_iff. apply strictEq_false. Qed.

Lemma sentSince_app {Remote} (w w' : World Remote) (l : list Exchange) :
  sent w' = sent w ++ l -> sentSince w w' = l.
Proof.
  intros E. unfold sentSince. rewrite E.
  rewrite skipn_app, skipn_all, Nat.sub_diag. reflexivity.
Qed.

Lemma requestsSince_app {Remote} (w w' : World Remote) (l : list Exchange) :
  sent w' = sent w ++ l -> requestsSince w w' = map request l.
Proof. intros E. unfold requestsSince. now rewrite (sentSince_app _ _ _ E). Qed.

Lemma sentSince_refl {Remote} (w w' : World Remote) :
  sent w' = sent w -> sentSince w w' = [].
Proof. intros E. apply sentSince_app. now rewrite app_nil_r. Qed.

(** The log of a world reached by sending: [sent w ++ l], with the
    concatenations associated to the right. *)
Ltac since :=
  first
    [ apply sentSince_app; cbn [sent]; rewrite <- ?app_assoc; reflexivity
    | erewrite requestsSince_app
        by (cbn [sent]; rewrite <- ?app_assoc; reflexivity);
      reflexivity ].

(** ** The comparison of [updateLambda] against the words of the
    specification *)

(** The comparison throws exactly on a configuration whose runtime and
    handler are the desired ones and whose list of layers is empty. *)
Lemma configurationDiffers_throws functionConfig layerVersion :
  (exists err, configurationDiffers functionConfig layerVersion = inl err) <->
  Lambda.Runtime functionConfig = Some LAMBDA_RUNTIME /\
  Lambda.Handler functionConfig = Some LAMBDA_HANDLER /\
  Lambda.Layers functionConfig = Some [].
Proof.
  unfold configurationDiffers, firstLayerArn.
  destruct (strictEq (Lambda.Runtime functionConfig) _) eqn:R; cbn [negb].
  2:{ apply strictEq_false in R. split.
      - intros [err H]. discriminate.
      - intros (H & _). contradiction. }
  destruct (strictEq (Lambda.Handler functionConfig) _) eqn:H; cbn [negb].
  2:{ apply strictEq_false in H. split.
      - intros [err H']. discriminate.
      - intros (_ & H' & _). contradiction. }
  apply strictEq_spec in R, H.
  destruct (Lambda.Layers functionConfig) as [[|layer rest]|]; split;
    try (intros [err E]; discriminate); try (intros (_ & _ & E); discriminate).
  - auto.
  - intros _. eexists. reflexivity.
Qed.

(** When the comparison has a value, it is the one of the specification. *)
Lemma configurationDiffers_value functionConfig layerVersion differs :
  configurationDiffers functionConfig layerVersion = inr differs ->
  (differs = true <-> differsFromDesired functionConfig layerVersion).
Proof.
  unfold configurationDiffers, differsFromDesired, firstLayerArn,
    attachedLayerReference.
  destruct (strictEq (Lambda.Runtime functionConfig) _) eqn:R; cbn [negb].
  2:{ apply strictEq_false in R. intros [= <-]. tauto. }
  destruct (strictEq (Lambda.Handler functionConfig) _) eqn:H; cbn [negb].
  2:{ apply strictEq_false in H. intros [= <-]. tauto. }
  apply strictEq_spec in R, H.
  destruct (Lambda.Layers functionConfig) as [[|layer rest]|]; cbv beta iota;
    intros [= <-]; [rewrite negb_strictEq; tauto|].
  change (negb (strictEq None layerVersion) = true <->
          Lambda.Runtime functionConfig <> Some LAMBDA_RUNTIME \/
          Lambda.Handler functionConfig <> Some LAMBDA_HANDLER \/
          None <> layerVersion).
  rewrite negb_strictEq; tauto.
Qed.

(** ** The runs of the functions of deploy.ts *)
Section DeployFacts.

Context {Remote : Type}.
Variable client : Lambda.LambdaClient Remote.
Variable getConfig : MedplumServerConfig.
Variable generateAsync : JSZip.t -> Completion (list Byte.byte).


(** The world after one exchange with the platform. *)
Lemma send_run {I O : Type} (operation : I -> Remote -> Completion O * Remote)
  (command : I -> Lambda.Command) (input : I) (w : World Remote) :
  send operation command input w =
  (fst (operation input (remote w)),
   {| remote := snd (operation input (remote w));
      sent := sent w ++
        [{| request := command input;
            acknowledged := negb (threw (fst (operation input (remote w)))) |}];
      logged := logged w |}).
Proof. unfold send. destruct (operation input (remote w)). reflexivity. Qed.

Lemma getLayerVersion_run (w : World Remote) :
  let query := listLayerVersionsInput getConfig in
  let answer := Lambda.listLayerVersions client query (remote w) in
  getLayerVersion client getConfig w =
  (match fst answer with
   | inl err => inl err
   | inr response => firstLayerVersionArn response
   end,
   {| remote := snd answer;
      sent := sent w ++
        [{| request := Lambda.ListLayerVersionsCommand query;
            acknowledged := negb (threw (fst answer)) |}];
      logged := logged w |}).
Proof.
  unfold getLayerVersion, await, settle. rewrite send_run. cbv zeta.
  destruct (Lambda.listLayerVersions client _ (remote w)) as [[err|response] r];
    reflexivity.
Qed.

(** [createLambda] after a layer version has been resolved. *)
Lemma createLambda_resolved (name : string) (zipFile : list Byte.byte)
  (w w1 : World Remote) (layerVersion : option string) :
  getLayerVersion client getConfig w = (inr layerVersion, w1) ->
  let input := createFunctionInput getConfig name zipFile layerVersion in
  let answer := Lambda.createFunction client input (remote w1) in
  createLambda client getConfig name zipFile w =
  (match fst answer with inl err => inl err | inr _ => inr tt end,
   {| remote := snd answer;
      sent := sent w1 ++
        [{| request := Lambda.CreateFunctionCommand input;
            acknowledged := negb (threw (fst answer)) |}];
      logged := logged w1 |}).
Proof.
  intros E. unfold createLambda, await. rewrite E, send_run.
  cbv zeta.
  destruct (Lambda.createFunction client _ (remote w1)) as [[err|out] r];
    reflexivity.
Qed.

(** [createLambda] and [updateLambda] when no layer version is resolved. *)
Lemma createLambda_unresolved (name : string) (zipFile : list Byte.byte)
  (w w1 : World Remote) (err : JsError) :
  getLayerVersion client getConfig w = (inl err, w1) ->
  createLambda client getConfig name zipFile w = (inl err, w1).
Proof. intros E. unfold createLambda, await. now rewrite E. Qed.

Lemma updateLambda_unresolved (name : string) (zipFile : list Byte.byte)
  (w w1 : World Remote) (err : JsError) :
  getLayerVersion client getConfig w = (inl err, w1) ->
  updateLambda client getConfig name zipFile w = (inl err, w1).
Proof. intros E. unfold updateLambda, await. now rewrite E. Qed.

(** Unfolds an asynchronous function down to the calls of the platform. *)
Ltac unfold_async :=
  cbv beta iota zeta delta
    [updateLambda createLambda getLayerVersion lambdaExists deployLambda
     createZipFile logger await settle resolve reject tryCatch send].

(** Case analysis on a value that may be an exception. *)
Ltac value_of f :=
  match goal with
  | |- context [f ?a ?b] =>
      destruct (f a b) as [?err|?v] eqn:?;
      cbv beta iota; cbn [remote sent logged fst snd threw negb]
  | |- context [f ?a] =>
      destruct (f a) as [?err|?v] eqn:?;
      cbv beta iota; cbn [remote sent logged fst snd threw negb]
  end.

(** The run stopped: the log holds the requests sent so far. *)
Ltac log_is_prior :=
  eexists; split; [|left; since]; repeat constructor.

(** Case analysis on the next answer of the platform. *)
Ltac answer_of operation :=
  cbn [remote sent logged fst snd threw negb];
  match goal with
  | |- context [operation ?c ?i ?r] =>
      let E := fresh "Answer" in
      destruct (operation c i r) as [[?err|?out] ?r'] eqn:E;
      cbv beta iota; cbn [remote sent logged fst snd threw negb]
  end.

(** The log of an [updateLambda]: requests that are not code updates,
    followed or not by the code update; it follows only when all the
    requests before it were acknowledged. *)
Lemma updateLambda_log (name : string) (zipFile : list Byte.byte)
  (w : World Remote) :
  exists prior : list Exchange,
    Forall (fun e => Lambda.isUpdateFunctionCode (request e) = false /\
                     Lambda.isCreateFunction (request e) = false) prior /\
    (sentSince w (snd (updateLambda client getConfig name zipFile w)) = prior \/
     exists ack,
       sentSince w (snd (updateLambda client getConfig name zipFile w)) =
       prior ++
       [{| request :=
             Lambda.UpdateFunctionCodeCommand (updateFunctionCodeInput name zipFile);
           acknowledged := ack |}] /\
       Forall (fun e => acknowledged e = true) prior).
Proof.
  unfold_async.
  answer_of (@Lambda.listLayerVersions Remote).
  { log_is_prior. }
  value_of firstLayerVersionArn.
  { log_is_prior. }
  answer_of (@Lambda.getFunctionConfiguration Remote).
  { log_is_prior. }
  value_of configurationDiffers.
  { log_is_prior. }
  destruct v0.
  - answer_of (@Lambda.updateFunctionConfiguration Remote).
    { log_is_prior. }
    answer_of (@Lambda.updateFunctionCode Remote);
      (eexists (_ :: _ :: _ :: nil); split; [|right; eexists; split; [since|]];
       repeat constructor).
  - answer_of (@Lambda.updateFunctionCode Remote);
      (eexists (_ :: _ :: nil); split; [|right; eexists; split; [since|]];
       repeat constructor).
Qed.

(** The requests of an [updateLambda] whose queries are answered and whose
    comparison has the value [differs]: the two queries, the configuration
    update when [differs] holds and, unless that update is rejected, the code
    update. *)
Lemma updateLambda_requests (name : string) (zipFile : list Byte.byte)
  (w : World Remote) (response : Lambda.ListLayerVersions.Output) (r1 r2 : Remote)
  (layerVersion : option string) (functionConfig : Lambda.FunctionConfiguration)
  (differs : bool) :
  Lambda.listLayerVersions client (listLayerVersionsInput getConfig) (remote w) =
    (inr response, r1) ->
  firstLayerVersionArn response = inr layerVersion ->
  Lambda.getFunctionConfiguration client
    {| Lambda.GetFunctionConfiguration.FunctionName := name |} r1 =
    (inr functionConfig, r2) ->
  configurationDiffers functionConfig layerVersion = inr differs ->
  let configurationUpdate := updateFunctionConfigurationInput getConfig name layerVersion in
  let rejected :=
    differs &&
    threw (fst (Lambda.updateFunctionConfiguration client configurationUpdate r2)) in
  requestsSince w (snd (updateLambda client getConfig name zipFile w)) =
  [Lambda.ListLayerVersionsCommand (listLayerVersionsInput getConfig);
   Lambda.GetFunctionConfigurationCommand
     {| Lambda.GetFunctionConfiguration.FunctionName := name |}]
  ++ (if differs
      then [Lambda.UpdateFunctionConfigurationCommand configurationUpdate]
      else [])
  ++ (if rejected
      then []
      else [Lambda.UpdateFunctionCodeCommand (updateFunctionCodeInput name zipFile)]).
Proof.
  intros Hlist Hfirst Hconfig Hdiffers configurationUpdate rejected.
  subst rejected configurationUpdate.
  unfold_async. rewrite Hlist. cbv beta iota. rewrite Hfirst.
  cbn [remote sent logged fst snd threw negb]. rewrite Hconfig. cbv beta iota.
  rewrite Hdiffers. cbn [remote sent logged fst snd threw negb].
  destruct differs; cbn [andb].
  - answer_of (@Lambda.updateFunctionConfiguration Remote); [since|].
    answer_of (@Lambda.updateFunctionCode Remote); since.
  - answer_of (@Lambda.updateFunctionCode Remote); since.
Qed.

(** The requests of a [createLambda]: the list query, and the creation
    when a layer version was resolved. *)
Lemma createLambda_requests (name : string) (zipFile : list Byte.byte)
  (w : World Remote) :
  let w' := snd (createLambda client getConfig name zipFile w) in
  match fst (getLayerVersion client getConfig w) with
  | inl err =>
      fst (createLambda client getConfig name zipFile w) = inl err /\
      requestsSince w w' =
      [Lambda.ListLayerVersionsCommand (listLayerVersionsInput getConfig)]
  | inr layerVersion =>
      requestsSince w w' =
      [Lambda.ListLayerVersionsCommand (listLayerVersionsInput getConfig);
       Lambda.CreateFunctionCommand
         (createFunctionInput getConfig name zipFile layerVersion)]
  end.
Proof.
  unfold_async.
  answer_of (@Lambda.listLayerVersions Remote).
  { split; [reflexivity|since]. }
  value_of firstLayerVersionArn.
  { split; [reflexivity|since]. }
  answer_of (@Lambda.createFunction Remote); since.
Qed.

(** Splitting a log that ends, if at all, with its only code update. *)
Lemma code_update_is_last (log prior before after : list Exchange)
  (codeUpdate last : Exchange) :
  Forall (fun e => Lambda.isUpdateFunctionCode (request e) = false) prior ->
  log = prior \/ log = prior ++ [last] ->
  log = before ++ codeUpdate :: after ->
  Lambda.isUpdateFunctionCode (request codeUpdate) = true ->
  after = [] /\ before = prior /\ codeUpdate = last /\ log = prior ++ [last].
Proof.
  intros Hprior Hlog Hsplit Hcode.
  assert (Hnot : ~ In codeUpdate prior).
  { intros Hin. rewrite Forall_forall in Hprior.
    specialize (Hprior _ Hin). congruence. }
  destruct Hlog as [-> | ->].
  - exfalso. apply Hnot. rewrite Hsplit. apply in_elt.
  - destruct after as [|y after'] using rev_ind.
    + apply app_inj_tail in Hsplit as [-> ->]. auto.
    + exfalso. apply Hnot.
      change (codeUpdate :: after' ++ [y]) with ((codeUpdate :: after') ++ [y])
        in Hsplit.
      rewrite app_assoc in Hsplit.
      apply app_inj_tail in Hsplit as [-> _]. apply in_elt.
Qed.

(** ** The Existence Prober *)

(** The prober always returns, after its one query. *)
Lemma lambdaExists_returns (name : string) (w : World Remote) :
  exists (found : bool) (w' : World Remote),
    lambdaExists client name w = (inr found, w') /\
    requestsSince w w' =
      [Lambda.GetFunctionCommand {| Lambda.GetFunction.FunctionName := name |}].
Proof.
  unfold_async.
  answer_of (@Lambda.getFunction Remote);
    (eexists _, _; split; [reflexivity|since]).
Qed.

(** C6: [lambdaExists] never throws; it returns [true] exactly when the
    query is answered and the function name reported in the answer is the
    queried name, and it returns [false] whenever the query is rejected,
    whatever the error.  It sends the one query. *)
Theorem lambdaExists_true_only_on_exact_match (name : string) (w : World Remote) :
  let query := {| Lambda.GetFunction.FunctionName := name |} in
  let answer := fst (Lambda.getFunction client query (remote w)) in
  exists (found : bool) (w' : World Remote),
    lambdaExists client name w = (inr found, w') /\
    requestsSince w w' = [Lambda.GetFunctionCommand query] /\
    (found = true <->
     exists response,
       answer = inr response /\ reportedFunctionName response = Some name) /\
    (forall err, answer = inl err -> found = false).
Proof.
  intros query answer. subst answer. unfold_async. fold query.
  answer_of (@Lambda.getFunction Remote).
  - eexists _, _. split; [reflexivity|]. split; [since|].
    split; [|reflexivity].
    split; [discriminate|]. intros (response & H & _). discriminate.
  - eexists _, _. split; [reflexivity|]. split; [since|].
    split; [|discriminate].
    rewrite strictEq_spec. split.
    + intros H. exists out. split; [reflexivity|assumption].
    + intros (response & [= <-] & H). assumption.
Qed.

(** ** The Layer Resolver *)

(** C3: [getLayerVersion] returns the identifier of the first element of the
    list of versions in the answer; when that list is empty (the read of
    element 0 throws) or the query is rejected (the rejection propagates) it
    fails, and then [createLambda] and [updateLambda] fail with the same
    error after the list query alone: no creation, configuration update or
    code update is requested. *)
Theorem getLayerVersion_first_or_fails (w : World Remote) :
  let query := listLayerVersionsInput getConfig in
  let answer := fst (Lambda.listLayerVersions client query (remote w)) in
  (forall response item rest,
     answer = inr response ->
     Lambda.ListLayerVersions.LayerVersions response = Some (item :: rest) ->
     fst (getLayerVersion client getConfig w) = inr (Lambda.LayerVersionArn item)) /\
  (forall err,
     (exists response,
        answer = inr response /\
        Lambda.ListLayerVersions.LayerVersions response = Some [] /\
        err = TypeError_undefined "LayerVersionArn") \/
     answer = inl err ->
     fst (getLayerVersion client getConfig w) = inl err /\
     forall name zipFile,
       fst (createLambda client getConfig name zipFile w) = inl err /\
       requestsSince w (snd (createLambda client getConfig name zipFile w)) =
         [Lambda.ListLayerVersionsCommand query] /\
       fst (updateLambda client getConfig name zipFile w) = inl err /\
       requestsSince w (snd (updateLambda client getConfig name zipFile w)) =
         [Lambda.ListLayerVersionsCommand query]).
Proof.
  intros query answer. subst answer query. split.
  - intros response item rest Hanswer Hlist.
    rewrite getLayerVersion_run. cbn [fst]. rewrite Hanswer.
    unfold firstLayerVersionArn. now rewrite Hlist.
  - intros err Hfails.
    assert (exists w1,
              getLayerVersion client getConfig w = (inl err, w1) /\
              sent w1 = sent w ++
                [{| request :=
                      Lambda.ListLayerVersionsCommand (listLayerVersionsInput getConfig);
                    acknowledged :=
                      negb (threw (fst (Lambda.listLayerVersions client
                                          (listLayerVersionsInput getConfig)
                                          (remote w)))) |}])
      as (w1 & Hrun & Hsent).
    { rewrite getLayerVersion_run. cbv zeta.
      destruct Hfails as [(response & -> & Hlist & ->) | ->].
      - unfold firstLayerVersionArn. rewrite Hlist.
        eexists. split; reflexivity.
      - eexists. split; reflexivity. }
    rewrite Hrun. split; [reflexivity|].
    intros name zipFile.
    rewrite (createLambda_unresolved _ _ _ _ _ Hrun),
      (updateLambda_unresolved _ _ _ _ _ Hrun).
    cbn [fst snd]. erewrite requestsSince_app by exact Hsent.
    repeat split; reflexivity.
Qed.

(** ** The Packager *)

(** C7: for every code text, the archive that [createZipFile] produces is
    the serialization of exactly two entries: the code, unchanged, under
    [user.js], and [WRAPPER_CODE] under [index.js]. *)
Theorem createZipFile_two_entries (code : string) (w : World Remote) :
  let zip := JSZip.file "index.js" WRAPPER_CODE
               (JSZip.file "user.js" code JSZip.new) in
  createZipFile (Remote := Remote) generateAsync code w = (generateAsync zip, w) /\
  zip = [("user.js", code); ("index.js", WRAPPER_CODE)] /\
  JSZip.names zip = ["user.js"; "index.js"] /\
  JSZip.read "user.js" zip = Some code /\
  JSZip.read "index.js" zip = Some WRAPPER_CODE /\
  (forall name,
     name <> "user.js" -> name <> "index.js" -> JSZip.read name zip = None).
Proof.
  cbv zeta. repeat split.
  intros name Huser Hindex. cbn [JSZip.file JSZip.new JSZip.read].
  change (String.eqb "user.js" "index.js") with false. cbv iota.
  cbn [JSZip.read].
  destruct (String.eqb_spec "user.js" name) as [E|_]; [congruence|].
  destruct (String.eqb_spec "index.js" name) as [E|_]; [congruence|].
  reflexivity.
Qed.

(** C9: when [createZipFile] fails, [deployLambda] fails with the same
    error without a request to the platform: the log of requests and the
    state of the platform are the ones before the call; only the first
    line of the logger has been written. *)
Theorem deployLambda_packaging_failure (name code : string) (w : World Remote)
  (err : JsError) :
  fst (createZipFile generateAsync code w) = inl err ->
  let w' := snd (deployLambda client getConfig generateAsync name code w) in
  fst (deployLambda client getConfig generateAsync name code w) = inl err /\
  sent w' = sent w /\
  remote w' = remote w /\
  requestsSince w w' = [] /\
  logged w' = logged w ++ [(INFO, ("Deploying lambda function for bot: " ++ name)%string)].
Proof.
  unfold_async. cbn [fst snd]. intros ->. cbn [fst snd sent remote logged].
  repeat split. unfold requestsSince. now rewrite sentSince_refl.
Qed.

(** ** The Reconciler *)

(** C8: when the layer version is resolved, [createLambda] sends, after the
    list query, exactly one creation request, and no other request: it
    carries the name, the role of the configuration, [LAMBDA_RUNTIME],
    [LAMBDA_HANDLER], the package type [Zip], the resolved layer version as
    the only layer (the identifier of the first listed version when there
    is one), the archive, [Publish = true] and [Timeout = 10]. *)
Theorem createLambda_one_creation_request (name : string)
  (zipFile : list Byte.byte) (w w1 : World Remote) (layerVersion : option string) :
  getLayerVersion client getConfig w = (inr layerVersion, w1) ->
  let w' := snd (createLambda client getConfig name zipFile w) in
  let creation :=
    Lambda.CreateFunctionCommand
      {| Lambda.CreateFunction.FunctionName := name;
         Lambda.CreateFunction.Role := botLambdaRoleArn getConfig;
         Lambda.CreateFunction.Runtime := "nodejs16.x";
         Lambda.CreateFunction.Handler := "index.handler";
         Lambda.CreateFunction.PackageType := Lambda.Zip;
         Lambda.CreateFunction.Layers := [layerVersion];
         Lambda.CreateFunction.Code :=
           {| Lambda.CreateFunction.ZipFile := zipFile |};
         Lambda.CreateFunction.Publish := true;
         Lambda.CreateFunction.Timeout := 10 |} in
  requestsSince w1 w' = [creation] /\
  requestsSince w w' =
    [Lambda.ListLayerVersionsCommand (listLayerVersionsInput getConfig); creation] /\
  filter Lambda.isCreateFunction (requestsSince w w') = [creation] /\
  (forall response item rest,
     fst (Lambda.listLayerVersions client (listLayerVersionsInput getConfig)
            (remote w)) = inr response ->
     Lambda.ListLayerVersions.LayerVersions response = Some (item :: rest) ->
     layerVersion = Lambda.LayerVersionArn item).
Proof.
  intros Hresolved w' creation.
  assert (Hall : requestsSince w w' =
    [Lambda.ListLayerVersionsCommand (listLayerVersionsInput getConfig); creation]).
  { pose proof (createLambda_requests name zipFile w) as H. cbv zeta in H.
    rewrite Hresolved in H. exact H. }
  split; [|split; [exact Hall|split]].
  - subst w'. rewrite (createLambda_resolved _ _ _ _ _ Hresolved). cbv zeta.
    cbn [snd]. since.
  - rewrite Hall. reflexivity.
  - intros response item rest Hanswer Hlist.
    rewrite getLayerVersion_run in Hresolved. cbv zeta in Hresolved.
    rewrite Hanswer in Hresolved. unfold firstLayerVersionArn in Hresolved.
    rewrite Hlist in Hresolved. congruence.
Qed.

(** An [updateLambda] never requests a creation. *)
Lemma updateLambda_never_creates (name : string) (zipFile : list Byte.byte)
  (w : World Remote) :
  Forall (fun c => Lambda.isCreateFunction c = false)
    (requestsSince w (snd (updateLambda client getConfig name zipFile w))).
Proof.
  destruct (updateLambda_log name zipFile w) as (prior & Hprior & Hlog).
  assert (Hnone : Forall (fun c => Lambda.isCreateFunction c = false)
                    (map request prior)).
  { rewrite Forall_map. eapply Forall_impl; [|exact Hprior]. intros e [_ H]; exact H. }
  unfold requestsSince. destruct Hlog as [-> | (ack & -> & _)]; [exact Hnone|].
  rewrite map_app. apply Forall_app. split; [exact Hnone|].
  repeat constructor.
Qed.

(** A [createLambda] requests nothing that belongs to an update. *)
Lemma createLambda_never_updates (name : string) (zipFile : list Byte.byte)
  (w : World Remote) :
  Forall (fun c => Lambda.isGetFunctionConfiguration c = false /\
                   Lambda.isUpdateFunctionConfiguration c = false /\
                   Lambda.isUpdateFunctionCode c = false)
    (requestsSince w (snd (createLambda client getConfig name zipFile w))).
Proof.
  pose proof (createLambda_requests name zipFile w) as H. cbv zeta in H.
  destruct (fst (getLayerVersion client getConfig w)) as [err|layerVersion].
  - destruct H as [_ ->]. repeat constructor.
  - rewrite H. repeat constructor.
Qed.

(** C4: in the requests of an [updateLambda], a code update is the last
    request, it is the only code update, and every request before it, the
    configuration update among them, has been acknowledged: no code update
    follows a configuration update that was rejected, and no configuration
    update follows the code update. *)
Theorem updateLambda_configuration_before_code (name : string)
  (zipFile : list Byte.byte) (w : World Remote)
  (before after : list Exchange) (codeUpdate : Exchange) :
  sentSince w (snd (updateLambda client getConfig name zipFile w)) =
    before ++ codeUpdate :: after ->
  Lambda.isUpdateFunctionCode (request codeUpdate) = true ->
  after = [] /\
  Forall (fun e => acknowledged e = true) before /\
  Forall (fun e => Lambda.isUpdateFunctionCode (request e) = false) before.
Proof.
  intros Hsplit Hcode.
  destruct (updateLambda_log name zipFile w) as (prior & Hprior & Hlog).
  assert (Hprior' :
            Forall (fun e => Lambda.isUpdateFunctionCode (request e) = false) prior).
  { eapply Forall_impl; [|exact Hprior]. intros e [H _]; exact H. }
  destruct Hlog as [Hlog | (ack & Hlog & Hack)].
  - exfalso.
    assert (Hin : In codeUpdate prior).
    { rewrite <- Hlog, Hsplit. apply in_elt. }
    rewrite Forall_forall in Hprior'. specialize (Hprior' _ Hin). congruence.
  - destruct (code_update_is_last _ prior before after codeUpdate _ Hprior'
                (or_intror Hlog) Hsplit Hcode) as (-> & -> & _).
    auto.
Qed.

(** C5, amended: in an [updateLambda] whose two queries are answered, whose
    comparison has a value and whose configuration update, when it is sent,
    is acknowledged, exactly one code update is requested, as the last
    request, with the archive and [Publish = true], whether the
    configuration update was sent or skipped. *)
Theorem updateLambda_one_code_update (name : string) (zipFile : list Byte.byte)
  (w : World Remote) (response : Lambda.ListLayerVersions.Output) (r1 r2 : Remote)
  (layerVersion : option string) (functionConfig : Lambda.FunctionConfiguration)
  (differs : bool) :
  Lambda.listLayerVersions client (listLayerVersionsInput getConfig) (remote w) =
    (inr response, r1) ->
  firstLayerVersionArn response = inr layerVersion ->
  Lambda.getFunctionConfiguration client
    {| Lambda.GetFunctionConfiguration.FunctionName := name |} r1 =
    (inr functionConfig, r2) ->
  configurationDiffers functionConfig layerVersion = inr differs ->
  (differs = true ->
   threw (fst (Lambda.updateFunctionConfiguration client
                 (updateFunctionConfigurationInput getConfig name layerVersion) r2))
   = false) ->
  let requests :=
    requestsSince w (snd (updateLambda client getConfig name zipFile w)) in
  let codeUpdate :=
    Lambda.UpdateFunctionCodeCommand
      {| Lambda.UpdateFunctionCode.FunctionName := name;
         Lambda.UpdateFunctionCode.ZipFile := zipFile;
         Lambda.UpdateFunctionCode.Publish := true |} in
  filter Lambda.isUpdateFunctionCode requests = [codeUpdate] /\
  (exists earlier, requests = earlier ++ [codeUpdate]) /\
  (length (filter Lambda.isUpdateFunctionConfiguration requests) =
   if differs then 1 else 0).
Proof.
  intros Hlist Hfirst Hconfig Hdiffers Hack requests codeUpdate.
  subst requests.
  rewrite (updateLambda_requests name zipFile w _ _ _ _ _ _
             Hlist Hfirst Hconfig Hdiffers).
  cbv zeta. destruct differs.
  - rewrite (Hack eq_refl). cbn [andb]. repeat split.
    eexists [_; _; _]. reflexivity.
  - cbn [andb]. repeat split. eexists [_; _]. reflexivity.
Qed.

(** When the comparison has a value, the configuration update is requested
    exactly when the configuration differs from the desired one, in the
    words of the specification, and it carries the desired configuration. *)
Lemma updateLambda_configuration_update_iff (name : string)
  (zipFile : list Byte.byte) (w : World Remote)
  (response : Lambda.ListLayerVersions.Output) (r1 r2 : Remote)
  (layerVersion : option string) (functionConfig : Lambda.FunctionConfiguration)
  (differs : bool) :
  Lambda.listLayerVersions client (listLayerVersionsInput getConfig) (remote w) =
    (inr response, r1) ->
  firstLayerVersionArn response = inr layerVersion ->
  Lambda.getFunctionConfiguration client
    {| Lambda.GetFunctionConfiguration.FunctionName := name |} r1 =
    (inr functionConfig, r2) ->
  configurationDiffers functionConfig layerVersion = inr differs ->
  let requests :=
    requestsSince w (snd (updateLambda client getConfig name zipFile w)) in
  (differsFromDesired functionConfig layerVersion ->
   filter Lambda.isUpdateFunctionConfiguration requests =
   [Lambda.UpdateFunctionConfigurationCommand
      (updateFunctionConfigurationInput getConfig name layerVersion)]) /\
  (~ differsFromDesired functionConfig layerVersion ->
   filter Lambda.isUpdateFunctionConfiguration requests = []).
Proof.
  intros Hlist Hfirst Hconfig Hdiffers requests. subst requests.
  rewrite (updateLambda_requests name zipFile w _ _ _ _ _ _
             Hlist Hfirst Hconfig Hdiffers).
  cbv zeta. pose proof (configurationDiffers_value _ _ _ Hdiffers) as Hvalue.
  destruct differs; cbn [andb].
  - split; [|intros Hnot; exfalso; apply Hnot, Hvalue; reflexivity].
    intros _.
    destruct (threw _); reflexivity.
  - split; [|reflexivity].
    intros H. apply Hvalue in H. discriminate.
Qed.

(** On a configuration with the desired runtime and handler and an empty
    list of layers the comparison throws: [updateLambda] fails after its two
    queries, although the configuration differs from the desired one as soon
    as a layer version was resolved. *)
Lemma updateLambda_empty_layers (name : string) (zipFile : list Byte.byte)
  (w : World Remote) (response : Lambda.ListLayerVersions.Output) (r1 r2 : Remote)
  (layerVersion : string) (functionConfig : Lambda.FunctionConfiguration) :
  Lambda.listLayerVersions client (listLayerVersionsInput getConfig) (remote w) =
    (inr response, r1) ->
  firstLayerVersionArn response = inr (Some layerVersion) ->
  Lambda.getFunctionConfiguration client
    {| Lambda.GetFunctionConfiguration.FunctionName := name |} r1 =
    (inr functionConfig, r2) ->
  Lambda.Runtime functionConfig = Some LAMBDA_RUNTIME ->
  Lambda.Handler functionConfig = Some LAMBDA_HANDLER ->
  Lambda.Layers functionConfig = Some [] ->
  differsFromDesired functionConfig (Some layerVersion) /\
  fst (updateLambda client getConfig name zipFile w) =
    inl (TypeError_undefined "Arn") /\
  requestsSince w (snd (updateLambda client getConfig name zipFile w)) =
    [Lambda.ListLayerVersionsCommand (listLayerVersionsInput getConfig);
     Lambda.GetFunctionConfigurationCommand
       {| Lambda.GetFunctionConfiguration.FunctionName := name |}].
Proof.
  intros Hlist Hfirst Hconfig Hruntime Hhandler Hlayers.
  split.
  { right; right. unfold attachedLayerReference. rewrite Hlayers. discriminate. }
  assert (Hthrows : configurationDiffers functionConfig (Some layerVersion) =
                    inl (TypeError_undefined "Arn")).
  { unfold configurationDiffers, firstLayerArn.
    rewrite Hruntime, Hhandler, Hlayers.
    rewrite (proj2 (strictEq_spec _ _) eq_refl).
    rewrite (proj2 (strictEq_spec _ _) eq_refl). reflexivity. }
  unfold_async. rewrite Hlist. cbv beta iota. rewrite Hfirst.
  cbn [remote sent logged fst snd threw negb]. rewrite Hconfig. cbv beta iota.
  rewrite Hthrows. cbn [fst snd]. split; [reflexivity|since].
Qed.

End DeployFacts.

(** ** Scenarios on scripted platforms *)

(** The scenarios of the specification: a first deployment creates the
    function with the latest layer version. *)
Example deploy_fnA_creates :
  let run :=
    deployLambda (Scripted.client (Scripted.absent "fn-A" [Scripted.latest; Scripted.previous]))
      Scripted.config Scripted.store "fn-A" Scripted.userCode Scripted.start in
  fst run = inr tt /\
  requestsSince Scripted.start (snd run) =
    [Scripted.probe "fn-A"; Scripted.listQuery;
     Scripted.creation "fn-A" (Scripted.packaged Scripted.userCode) Scripted.latest].
Proof. split; reflexivity. Qed.

(** A function whose configuration is the desired one only gets new code. *)
Example deploy_fnB_updates_code_only :
  let current :=
    Scripted.configuration "fn-B" "nodejs16.x" (Scripted.attached Scripted.latest) in
  let run :=
    deployLambda (Scripted.client (Scripted.deployed current [Scripted.latest; Scripted.previous]))
      Scripted.config Scripted.store "fn-B" Scripted.userCode Scripted.start in
  fst run = inr tt /\
  requestsSince Scripted.start (snd run) =
    [Scripted.probe "fn-B"; Scripted.listQuery; Scripted.configurationQuery "fn-B";
     Scripted.codeUpdate "fn-B" (Scripted.packaged Scripted.userCode)].
Proof. split; reflexivity. Qed.

(** A function on another runtime gets the desired configuration, then the
    new code. *)
Example deploy_fnC_updates_configuration_then_code :
  let current :=
    Scripted.configuration "fn-C" "nodejs14.x" (Scripted.attached Scripted.latest) in
  let run :=
    deployLambda (Scripted.client (Scripted.deployed current [Scripted.latest; Scripted.previous]))
      Scripted.config Scripted.store "fn-C" Scripted.userCode Scripted.start in
  fst run = inr tt /\
  requestsSince Scripted.start (snd run) =
    [Scripted.probe "fn-C"; Scripted.listQuery; Scripted.configurationQuery "fn-C";
     Scripted.configurationUpdate "fn-C" Scripted.latest;
     Scripted.codeUpdate "fn-C" (Scripted.packaged Scripted.userCode)].
Proof. split; reflexivity. Qed.

(** With an empty list of layer versions the deployment fails after the
    list query. *)
Example deploy_without_layer_version_fails :
  let run :=
    deployLambda (Scripted.client (Scripted.absent "fn-A" []))
      Scripted.config Scripted.store "fn-A" Scripted.userCode Scripted.start in
  fst run = inl (TypeError_undefined "LayerVersionArn") /\
  requestsSince Scripted.start (snd run) = [Scripted.probe "fn-A"; Scripted.listQuery].
Proof. split; reflexivity. Qed.

(** An absent list of layer versions is not an empty one: the chain yields
    [undefined], and the creation is requested with that layer. *)
Example create_with_absent_version_list :
  let script :=
    {| Scripted.onGetFunction := inl Scripted.notFound;
       Scripted.onGetFunctionConfiguration := inl Scripted.notFound;
       Scripted.onCreateFunction := inl Scripted.conflict;
       Scripted.onUpdateFunctionConfiguration := inl Scripted.notFound;
       Scripted.onUpdateFunctionCode := inl Scripted.notFound;
       Scripted.onListLayerVersions :=
         inr {| Lambda.ListLayerVersions.LayerVersions := None |} |} in
  let run :=
    createLambda (Scripted.client script) Scripted.config "fn-A" Scripted.archive
      Scripted.start in
  fst (getLayerVersion (Scripted.client script) Scripted.config Scripted.start) = inr None /\
  map Lambda.isCreateFunction (requestsSince Scripted.start (snd run)) = [false; true].
Proof. split; reflexivity. Qed.

(** *** Instances of the theorems above *)

(** C3 at an empty list of versions. *)
Lemma getLayerVersion_first_or_fails_empty_list :
  let client := Scripted.client (Scripted.absent "fn-A" []) in
  fst (getLayerVersion client Scripted.config Scripted.start) =
    inl (TypeError_undefined "LayerVersionArn") /\
  requestsSince Scripted.start
    (snd (createLambda client Scripted.config "fn-A" Scripted.archive Scripted.start)) =
    [Scripted.listQuery].
Proof.
  intros client.
  destruct (getLayerVersion_first_or_fails client Scripted.config Scripted.start)
    as [_ Hfails].
  destruct (Hfails (TypeError_undefined "LayerVersionArn")) as [Hresolver Hpaths].
  - left. exists (Scripted.layerVersions []). repeat split.
  - split; [exact Hresolver|].
    exact (proj1 (proj2 (Hpaths "fn-A" Scripted.archive))).
Defined.

(** C8 on a platform without the function. *)
Lemma createLambda_one_creation_request_fnA :
  let client :=
    Scripted.client (Scripted.absent "fn-A" [Scripted.latest; Scripted.previous]) in
  let w1 := snd (getLayerVersion client Scripted.config Scripted.start) in
  getLayerVersion client Scripted.config Scripted.start =
    (inr (Some Scripted.latest), w1) /\
  requestsSince Scripted.start
    (snd (createLambda client Scripted.config "fn-A" Scripted.archive Scripted.start)) =
    [Scripted.listQuery; Scripted.creation "fn-A" Scripted.archive Scripted.latest].
Proof.
  intros client w1. split; [reflexivity|].
  exact (proj1 (proj2
    (createLambda_one_creation_request client Scripted.config "fn-A"
       Scripted.archive Scripted.start w1 (Some Scripted.latest) eq_refl))).
Defined.

(** C9 with a serializer that fails. *)
Lemma deployLambda_packaging_failure_broken_zip :
  let client :=
    Scripted.client (Scripted.absent "fn-A" [Scripted.latest; Scripted.previous]) in
  fst (createZipFile (Remote := unit) Scripted.failing Scripted.userCode Scripted.start) =
    inl Scripted.brokenZip /\
  fst (deployLambda client Scripted.config Scripted.failing "fn-A" Scripted.userCode
         Scripted.start) = inl Scripted.brokenZip /\
  requestsSince Scripted.start
    (snd (deployLambda client Scripted.config Scripted.failing "fn-A"
            Scripted.userCode Scripted.start)) = [].
Proof.
  intros client. split; [reflexivity|].
  pose proof (deployLambda_packaging_failure client Scripted.config Scripted.failing
                "fn-A" Scripted.userCode Scripted.start Scripted.brokenZip eq_refl)
    as (Hfails & _ & _ & Hnone & _).
  split; [exact Hfails|exact Hnone].
Defined.

(** C4 on a function whose runtime is updated before its code. *)
Lemma updateLambda_configuration_before_code_fnC :
  let current :=
    Scripted.configuration "fn-C" "nodejs14.x" (Scripted.attached Scripted.latest) in
  let client :=
    Scripted.client (Scripted.deployed current [Scripted.latest; Scripted.previous]) in
  let before :=
    [Scripted.ok Scripted.listQuery; Scripted.ok (Scripted.configurationQuery "fn-C");
     Scripted.ok (Scripted.configurationUpdate "fn-C" Scripted.latest)] in
  sentSince Scripted.start
    (snd (updateLambda client Scripted.config "fn-C" Scripted.archive Scripted.start)) =
    before ++ Scripted.ok (Scripted.codeUpdate "fn-C" Scripted.archive) :: [] /\
  Forall (fun e => acknowledged e = true) before.
Proof.
  intros current client before. split; [reflexivity|].
  exact (proj1 (proj2
    (updateLambda_configuration_before_code client Scripted.config "fn-C"
       Scripted.archive Scripted.start before []
       (Scripted.ok (Scripted.codeUpdate "fn-C" Scripted.archive))
       eq_refl eq_refl))).
Defined.

(** C5, amended, on the same function. *)
Lemma updateLambda_one_code_update_fnC :
  let current :=
    Scripted.configuration "fn-C" "nodejs14.x" (Scripted.attached Scripted.latest) in
  let client :=
    Scripted.client (Scripted.deployed current [Scripted.latest; Scripted.previous]) in
  configurationDiffers current (Some Scripted.latest) = inr true /\
  filter Lambda.isUpdateFunctionCode
    (requestsSince Scripted.start
       (snd (updateLambda client Scripted.config "fn-C" Scripted.archive
               Scripted.start))) =
  [Scripted.codeUpdate "fn-C" Scripted.archive].
Proof.
  intros current client. split; [reflexivity|].
  exact (proj1
    (updateLambda_one_code_update client Scripted.config "fn-C" Scripted.archive
       Scripted.start
       (Scripted.layerVersions [Scripted.latest; Scripted.previous]) tt tt
       (Some Scripted.latest) current true
       eq_refl eq_refl eq_refl eq_refl (fun _ => eq_refl))).
Defined.

(** C5 as stated fails: the runtime of the function differs, the
    configuration update is sent and the platform rejects it; the call
    stops there and no code update is requested. *)
Lemma updateLambda_no_code_update_after_rejection :
  let current :=
    Scripted.configuration "fn-C" "nodejs14.x" (Scripted.attached Scripted.latest) in
  let client :=
    Scripted.client (Scripted.deployedBusy current [Scripted.latest; Scripted.previous]) in
  let run := updateLambda client Scripted.config "fn-C" Scripted.archive Scripted.start in
  fst run = inl Scripted.conflict /\
  requestsSince Scripted.start (snd run) =
    [Scripted.listQuery; Scripted.configurationQuery "fn-C";
     Scripted.configurationUpdate "fn-C" Scripted.latest] /\
  length (filter Lambda.isUpdateFunctionCode (requestsSince Scripted.start (snd run)))
    <> 1.
Proof. repeat split. discriminate. Qed.

(** C2 as stated fails at two deployments of a function the platform does
    not have.  When the archive cannot be built the deployment fails before
    the prober is asked: no request is sent and neither path runs.  When the
    archive is built and the layer has no version, the prober answers false
    and the creation path is taken, but it throws on the empty list of
    versions after the list query: no creation is requested. *)
Lemma deployLambda_no_path_or_no_creation :
  let broken :=
    deployLambda
      (Scripted.client (Scripted.absent "fn-A" [Scripted.latest; Scripted.previous]))
      Scripted.config Scripted.failing "fn-A" Scripted.userCode Scripted.start in
  let client := Scripted.client (Scripted.absent "fn-A" []) in
  let unlayered :=
    deployLambda client Scripted.config Scripted.store "fn-A" Scripted.userCode
      Scripted.start in
  (fst broken = inl Scripted.brokenZip /\
   requestsSince Scripted.start (snd broken) = []) /\
  (fst (lambdaExists client "fn-A" Scripted.start) = inr false /\
   fst unlayered = inl (TypeError_undefined "LayerVersionArn") /\
   requestsSince Scripted.start (snd unlayered) =
     [Scripted.probe "fn-A"; Scripted.listQuery] /\
   length (filter Lambda.isCreateFunction
             (requestsSince Scripted.start (snd unlayered))) <> 1).
Proof. repeat split. discriminate. Qed.

(** C1 at a function without layers, reported as an empty list: the
    runtime and the handler are the desired ones and no layer is attached,
    so that the attached layer reference differs from the resolved one; the
    comparison throws on the list, and the call fails after its two queries
    without the configuration update. *)
Theorem updateLambda_empty_layer_list_throws :
  let current := Scripted.configuration "fn-B" "nodejs16.x" (Some []) in
  let client :=
    Scripted.client (Scripted.deployed current [Scripted.latest; Scripted.previous]) in
  let run := updateLambda client Scripted.config "fn-B" Scripted.archive Scripted.start in
  differsFromDesired current (Some Scripted.latest) /\
  fst run = inl (TypeError_undefined "Arn") /\
  requestsSince Scripted.start (snd run) =
    [Scripted.listQuery; Scripted.configurationQuery "fn-B"] /\
  filter Lambda.isUpdateFunctionConfiguration
    (requestsSince Scripted.start (snd run)) = [].
Proof.
  intros current client run.
  destruct (updateLambda_empty_layers client Scripted.config "fn-B" Scripted.archive
              Scripted.start
              (Scripted.layerVersions [Scripted.latest; Scripted.previous]) tt tt
              Scripted.latest current
              eq_refl eq_refl eq_refl eq_refl eq_refl eq_refl)
    as (Hdiffers & Hthrows & Hrequests).
  split; [exact Hdiffers|]. split; [exact Hthrows|]. split; [exact Hrequests|].
  subst run. rewrite Hrequests. reflexivity.
Qed.

(** * The LRU cache *)

(** ** The Map *)
Section MapFacts.

Context {V : Type}.
Implicit Types (m : JSMap.t V) (key : string) (val : V).

Lemma JSMap_delete_length key m :
  (length (JSMap.delete key m) <= length m)%nat.
Proof. apply filter_length_le. Qed.

Lemma JSMap_delete_present_length key m :
  JSMap.has key m = true -> (S (length (JSMap.delete key m)) <= length m)%nat.
Proof.
  unfold JSMap.has, JSMap.delete.
  induction m as [|[k v] rest IH]; cbn [existsb filter fst length]; [discriminate|].
  destruct (String.eqb k key); cbn [negb orb length].
  - intros _. pose proof (filter_length_le
      (fun entry : string * V => negb (String.eqb (fst entry) key)) rest). lia.
  - intros H. apply IH in H. lia.
Qed.

Lemma JSMap_set_length key val m :
  (length (JSMap.set key val m) <= S (length m))%nat.
Proof.
  induction m as [|[k v] rest IH]; cbn [JSMap.set length]; [lia|].
  destruct (String.eqb k key); cbn [length]; lia.
Qed.

Lemma JSMap_set_fresh key val m :
  JSMap.has key m = false -> JSMap.set key val m = m ++ [(key, val)].
Proof.
  unfold JSMap.has.
  induction m as [|[k v] rest IH]; cbn [existsb fst JSMap.set app]; [reflexivity|].
  destruct (String.eqb k key); cbn [orb]; [discriminate|].
  intros H. now rewrite IH.
Qed.

Lemma JSMap_has_keys key m :
  JSMap.has key m = true <-> In key (JSMap.keys m).
Proof.
  unfold JSMap.has, JSMap.keys. rewrite existsb_exists, in_map_iff.
  split.
  - intros ([k v] & Hin & Heq). apply String.eqb_eq in Heq. now exists (k, v).
  - intros ([k v] & Heq & Hin). exists (k, v). split; [exact Hin|].
    now apply String.eqb_eq.
Qed.

Lemma JSMap_keys_delete key m :
  JSMap.keys (JSMap.delete key m) =
  filter (fun k => negb (String.eqb k key)) (JSMap.keys m).
Proof.
  unfold JSMap.keys, JSMap.delete.
  induction m as [|[k v] rest IH]; cbn [filter map fst]; [reflexivity|].
  destruct (String.eqb k key); cbn [negb map fst]; now rewrite IH.
Qed.

Lemma JSMap_has_delete key m : JSMap.has key (JSMap.delete key m) = false.
Proof.
  destruct (JSMap.has key (JSMap.delete key m)) eqn:E; [|reflexivity].
  apply JSMap_has_keys in E. rewrite JSMap_keys_delete, filter_In in E.
  destruct E as [_ E]. now rewrite String.eqb_refl in E.
Qed.

Lemma JSMap_has_delete_other key other m :
  JSMap.has key m = false -> JSMap.has key (JSMap.delete other m) = false.
Proof.
  intros H. destruct (JSMap.has key (JSMap.delete other m)) eqn:E; [|reflexivity].
  apply JSMap_has_keys in E. rewrite JSMap_keys_delete, filter_In in E.
  destruct E as [E _]. apply JSMap_has_keys in E. congruence.
Qed.

Lemma JSMap_get_has key m :
  JSMap.has key m = match JSMap.get key m with Some _ => true | None => false end.
Proof.
  unfold JSMap.has.
  induction m as [|[k v] rest IH]; cbn [existsb fst JSMap.get]; [reflexivity|].
  destruct (String.eqb k key); cbn [orb]; [reflexivity|exact IH].
Qed.

Lemma JSMap_get_In key val m : JSMap.get key m = Some val -> In (key, val) m.
Proof.
  induction m as [|[k v] rest IH]; cbn [JSMap.get]; [discriminate|].
  destruct (String.eqb_spec k key) as [->|_].
  - intros [= ->]. now left.
  - intros H. right. auto.
Qed.

End MapFacts.

(** ** The bound on the number of entries *)
Section CacheSize.

Context {T : Type}.
Variable truthy : T -> bool.
Implicit Types (this : LRUCache.LRUCache T) (key : string) (val : T).

Lemma first_present this oldest :
  LRUCache.first this = Some oldest ->
  JSMap.has oldest (LRUCache.cache this) = true.
Proof.
  unfold LRUCache.first. intros H. apply JSMap_has_keys.
  destruct (JSMap.keys (LRUCache.cache this)) as [|k rest]; [discriminate|].
  injection H as ->. now left.
Qed.

Lemma first_of_empty this :
  LRUCache.first this = None -> LRUCache.cache this = [].
Proof.
  unfold LRUCache.first, JSMap.keys.
  destruct (LRUCache.cache this) as [|entry rest]; [reflexivity|discriminate].
Qed.

Lemma get_keeps_max key this :
  LRUCache.max (snd (LRUCache.get truthy key this)) = LRUCache.max this.
Proof.
  unfold LRUCache.get.
  destruct (JSMap.get key (LRUCache.cache this)) as [val|]; [|reflexivity].
  destruct (truthy val); reflexivity.
Qed.

Lemma get_size key this :
  (JSMap.size (LRUCache.cache (snd (LRUCache.get truthy key this)))
   <= JSMap.size (LRUCache.cache this))%Z.
Proof.
  unfold LRUCache.get.
  pose proof (JSMap_get_has key (LRUCache.cache this)) as Hhas.
  destruct (JSMap.get key (LRUCache.cache this)) as [val|]; cbn [snd]; [|lia].
  destruct (truthy val); cbn [snd LRUCache.cache]; [|lia].
  unfold JSMap.size.
  pose proof (JSMap_delete_present_length key (LRUCache.cache this) Hhas).
  pose proof (JSMap_set_length key val (JSMap.delete key (LRUCache.cache this))).
  lia.
Qed.

(** [size >= max] fails only below the bound. *)
Lemma geb_false_below_bound (n : Z) (max : JsNumber.t) (bound : Z) :
  LRUCache.sizeBound max = Some bound ->
  JsNumber.geb (JsNumber.ofZ n) max = false ->
  (n + 1 <= bound)%Z.
Proof.
  destruct max as [q| | |]; cbn [LRUCache.sizeBound JsNumber.geb JsNumber.ofZ];
    try discriminate.
  intros [= <-] Hgeb.
  assert (Hlt : (inject_Z n < q)%Q).
  { apply Qnot_le_lt. intros Hle. apply Qle_bool_iff in Hle. congruence. }
  assert (Hceiling : (n < Qceiling q)%Z).
  { rewrite Zlt_Qlt. eapply Qlt_le_trans; [exact Hlt|apply Qle_ceiling]. }
  lia.
Qed.

Lemma sizeBound_positive (max : JsNumber.t) (bound : Z) :
  LRUCache.sizeBound max = Some bound -> (1 <= bound)%Z.
Proof.
  destruct max as [q| | |]; cbn [LRUCache.sizeBound]; intros [= <-]; lia.
Qed.

Lemma geb_ofZ (a b : Z) :
  JsNumber.geb (JsNumber.ofZ a) (JsNumber.ofZ b) = (b <=? a)%Z.
Proof.
  cbn [JsNumber.geb JsNumber.ofZ].
  destruct (Z.leb_spec b a) as [H|H].
  - apply Qle_bool_iff. now rewrite <- Zle_Qle.
  - destruct (Qle_bool (inject_Z b) (inject_Z a)) eqn:E; [|reflexivity].
    apply Qle_bool_iff in E. rewrite <- Zle_Qle in E. lia.
Qed.

(** The bound is kept by a [set]. *)
Lemma set_size_bound key val this (bound : Z) :
  LRUCache.sizeBound (LRUCache.max this) = Some bound ->
  (JSMap.size (LRUCache.cache this) <= bound)%Z ->
  (JSMap.size (LRUCache.cache (LRUCache.set key val this)) <= bound)%Z.
Proof.
  intros Hbound Hsize. unfold LRUCache.set. cbn [LRUCache.cache].
  pose proof (sizeBound_positive _ _ Hbound) as Hpositive.
  pose proof (geb_false_below_bound
                (JSMap.size (LRUCache.cache this)) _ _ Hbound) as Hroom.
  unfold JSMap.size in *.
  match goal with
  | |- (Z.of_nat (length (JSMap.set key val ?c)) <= _)%Z =>
      pose proof (JSMap_set_length key val c) as Hset
  end.
  destruct (JSMap.has key (LRUCache.cache this)) eqn:Hhas.
  - pose proof (JSMap_delete_present_length key _ Hhas). lia.
  - destruct (JsNumber.geb _ (LRUCache.max this)); [|specialize (Hroom eq_refl); lia].
    destruct (LRUCache.first this) as [oldest|] eqn:Hfirst.
    + pose proof (JSMap_delete_present_length oldest _ (first_present _ _ Hfirst)).
      lia.
    + apply first_of_empty in Hfirst. rewrite Hfirst in *. cbn in *. lia.
Qed.

Lemma perform_keeps_max this op :
  LRUCache.max (LRUCache.perform truthy this op) = LRUCache.max this.
Proof. destruct op as [key|key val]; [apply get_keeps_max|reflexivity]. Qed.

Lemma run_keeps_max history this :
  LRUCache.max (LRUCache.run truthy history this) = LRUCache.max this.
Proof.
  revert this. unfold LRUCache.run.
  induction history as [|op rest IH]; intros this; cbn [fold_left]; [reflexivity|].
  now rewrite IH, perform_keeps_max.
Qed.

(** The bound is kept whatever is read and written. *)
Lemma run_size_bound history this (bound : Z) :
  LRUCache.sizeBound (LRUCache.max this) = Some bound ->
  (JSMap.size (LRUCache.cache this) <= bound)%Z ->
  (JSMap.size (LRUCache.cache (LRUCache.run truthy history this)) <= bound)%Z.
Proof.
  revert this. unfold LRUCache.run.
  induction history as [|op rest IH]; intros this Hbound Hsize; cbn [fold_left];
    [exact Hsize|].
  apply IH; [now rewrite perform_keeps_max|].
  destruct op as [key|key val]; cbn [LRUCache.perform].
  - pose proof (get_size key this). lia.
  - now apply set_size_bound.
Qed.

(** A cache whose capacity is an integer [max >= 1] never holds more
    entries than its capacity, whatever is read and written. *)
Lemma size_bounded (max : Z) history :
  (1 <= max)%Z ->
  (JSMap.size
     (LRUCache.cache
        (LRUCache.run truthy history (LRUCache.new (Some (JsNumber.ofZ max)))))
   <= max)%Z.
Proof.
  intros Hmax.
  apply (run_size_bound history (LRUCache.new (Some (JsNumber.ofZ max)))).
  - cbn [LRUCache.new LRUCache.max LRUCache.sizeBound JsNumber.ofZ].
    rewrite Qceiling_Z. f_equal. lia.
  - cbn. lia.
Qed.

End CacheSize.

(** ** Recency *)
Section Recency.

Context {T : Type}.
Variable truthy : T -> bool.
Implicit Types (this : LRUCache.LRUCache T) (key : string) (val : T).
Implicit Types (ageOf : string -> nat) (stored : list string).
Implicit Types (op : LRUCache.Operation T).
Implicit Types (earlier history : list (LRUCache.Operation T)).

(** In a list from the least to the most recently used, the least
    recently used key is the first one. *)
Lemma oldestOf_oldestFirst ageOf stored :
  LRUCache.oldestFirst ageOf stored ->
  LRUCache.oldestOf ageOf stored = hd_error stored.
Proof.
  induction 1 as [|key rest Hsorted IH Hall]; [reflexivity|].
  cbn [LRUCache.oldestOf hd_error]. rewrite IH.
  destruct rest as [|next rest']; [reflexivity|]. cbn [hd_error].
  apply Forall_inv in Hall.
  destruct (Nat.ltb_spec (ageOf key) (ageOf next)); [lia|reflexivity].
Qed.

Lemma oldestFirst_filter ageOf (keep : string -> bool) stored :
  LRUCache.oldestFirst ageOf stored ->
  LRUCache.oldestFirst ageOf (filter keep stored).
Proof.
  induction 1 as [|key rest Hsorted IH Hall]; cbn [filter]; [constructor|].
  destruct (keep key); [|exact IH].
  constructor; [exact IH|].
  rewrite Forall_forall in *. intros k Hin. apply filter_In in Hin. now apply Hall.
Qed.

Lemma oldestFirst_NoDup ageOf stored :
  LRUCache.oldestFirst ageOf stored -> NoDup stored.
Proof.
  induction 1 as [|key rest Hsorted IH Hall]; constructor; [|exact IH].
  intros Hin. rewrite Forall_forall in Hall. specialize (Hall _ Hin). lia.
Qed.

(** The ages after an operation on [key]. *)
Lemma age_after op earlier (k : string) :
  LRUCache.age (op :: earlier) k =
  if String.eqb (LRUCache.usedKey op) k then 0 else S (LRUCache.age earlier k).
Proof. reflexivity. Qed.

(** An operation on a key that is not stored ages the stored keys alike. *)
Lemma oldestFirst_after_miss op earlier stored :
  LRUCache.oldestFirst (LRUCache.age earlier) stored ->
  ~ In (LRUCache.usedKey op) stored ->
  LRUCache.oldestFirst (LRUCache.age (op :: earlier)) stored.
Proof.
  induction 1 as [|k rest Hsorted IH Hall]; intros Hfresh; constructor.
  - apply IH. intros Hin. apply Hfresh. now right.
  - rewrite Forall_forall in *. intros k' Hin. rewrite !age_after.
    destruct (String.eqb_spec (LRUCache.usedKey op) k') as [E|_].
    { exfalso. apply Hfresh. rewrite E. now right. }
    destruct (String.eqb_spec (LRUCache.usedKey op) k) as [E|_].
    { exfalso. apply Hfresh. rewrite E. now left. }
    specialize (Hall _ Hin). lia.
Qed.

(** The key of the operation, put last, is the most recently used one. *)
Lemma oldestFirst_after_use op earlier stored :
  LRUCache.oldestFirst (LRUCache.age earlier) stored ->
  ~ In (LRUCache.usedKey op) stored ->
  LRUCache.oldestFirst (LRUCache.age (op :: earlier))
    (stored ++ [LRUCache.usedKey op]).
Proof.
  intros Hsorted Hfresh.
  pose proof (oldestFirst_after_miss op earlier stored Hsorted Hfresh) as Haged.
  clear Hsorted. induction Haged as [|k rest Hsorted IH Hall]; cbn [app].
  - repeat constructor.
  - constructor.
    + apply IH. intros Hin. apply Hfresh. now right.
    + apply Forall_app. split; [exact Hall|]. constructor; [|constructor].
      rewrite !age_after, String.eqb_refl.
      destruct (String.eqb_spec (LRUCache.usedKey op) k) as [E|_]; [|lia].
      exfalso. apply Hfresh. rewrite E. now left.
Qed.

(** Writing a key that is not stored into an ordered map. *)
Lemma ordered_append earlier key val (m : JSMap.t T) :
  LRUCache.oldestFirst (LRUCache.age earlier) (JSMap.keys m) ->
  Forall (fun entry => truthy (snd entry) = true) m ->
  JSMap.has key m = false ->
  truthy val = true ->
  forall op, LRUCache.usedKey op = key ->
  LRUCache.oldestFirst (LRUCache.age (op :: earlier))
    (JSMap.keys (JSMap.set key val m)) /\
  Forall (fun entry => truthy (snd entry) = true) (JSMap.set key val m).
Proof.
  intros Hsorted Htruthy Hfresh Hval op <-.
  rewrite (JSMap_set_fresh _ _ _ Hfresh). split.
  - unfold JSMap.keys. rewrite map_app. cbn [map fst].
    apply oldestFirst_after_use; [exact Hsorted|].
    intros Hin. apply JSMap_has_keys in Hin. congruence.
  - apply Forall_app. split; [exact Htruthy|]. repeat constructor. exact Hval.
Qed.

Lemma ordered_delete earlier other (m : JSMap.t T) :
  LRUCache.oldestFirst (LRUCache.age earlier) (JSMap.keys m) ->
  Forall (fun entry => truthy (snd entry) = true) m ->
  LRUCache.oldestFirst (LRUCache.age earlier) (JSMap.keys (JSMap.delete other m)) /\
  Forall (fun entry => truthy (snd entry) = true) (JSMap.delete other m).
Proof.
  intros Hsorted Htruthy. split.
  - rewrite JSMap_keys_delete. now apply oldestFirst_filter.
  - unfold JSMap.delete. rewrite Forall_forall in *. intros entry Hin.
    apply filter_In in Hin. now apply Htruthy.
Qed.

Lemma perform_ordered history this op :
  LRUCache.ordered truthy history this ->
  LRUCache.storesTruthy truthy [op] ->
  LRUCache.ordered truthy (history ++ [op]) (LRUCache.perform truthy this op).
Proof.
  unfold LRUCache.ordered. intros [Hsorted Htruthy] Hop.
  apply Forall_inv in Hop. rewrite rev_app_distr. cbn [rev app].
  destruct op as [key|key val]; cbn [LRUCache.perform].
  - unfold LRUCache.get.
    pose proof (JSMap_get_has key (LRUCache.cache this)) as Hhas.
    destruct (JSMap.get key (LRUCache.cache this)) as [val|] eqn:Hget; cbn [snd].
    + assert (Hval : truthy val = true).
      { apply JSMap_get_In in Hget. rewrite Forall_forall in Htruthy.
        exact (Htruthy _ Hget). }
      rewrite Hval. cbn [snd LRUCache.cache].
      destruct (ordered_delete _ key _ Hsorted Htruthy) as [Hsorted' Htruthy'].
      apply ordered_append;
        [exact Hsorted'|exact Htruthy'|apply JSMap_has_delete|exact Hval|reflexivity].
    + split; [|exact Htruthy].
      apply oldestFirst_after_miss; [exact Hsorted|].
      cbn [LRUCache.usedKey]. intros Hin. apply JSMap_has_keys in Hin. congruence.
  - unfold LRUCache.set. cbn [LRUCache.cache].
    destruct (JSMap.has key (LRUCache.cache this)) eqn:Hhas.
    + destruct (ordered_delete _ key _ Hsorted Htruthy) as [Hsorted' Htruthy'].
      apply ordered_append;
        [exact Hsorted'|exact Htruthy'|apply JSMap_has_delete|exact Hop|reflexivity].
    + destruct (JsNumber.geb _ (LRUCache.max this)).
      * destruct (LRUCache.first this) as [oldest|].
        -- destruct (ordered_delete _ oldest _ Hsorted Htruthy)
             as [Hsorted' Htruthy'].
           apply ordered_append;
             [exact Hsorted'|exact Htruthy'
             |now apply JSMap_has_delete_other|exact Hop|reflexivity].
        -- now apply ordered_append.
      * now apply ordered_append.
Qed.

Lemma run_ordered history :
  forall earlier this,
    LRUCache.ordered truthy earlier this ->
    LRUCache.storesTruthy truthy history ->
    LRUCache.ordered truthy (earlier ++ history) (LRUCache.run truthy history this).
Proof.
  unfold LRUCache.run.
  induction history as [|op rest IH]; intros earlier this Hordered Hstores;
    cbn [fold_left].
  - now rewrite app_nil_r.
  - change (op :: rest) with ([op] ++ rest). rewrite app_assoc.
    apply Forall_cons_iff in Hstores as [Hop Hrest].
    apply IH; [|exact Hrest].
    apply perform_ordered; [exact Hordered|]. now constructor.
Qed.

(** As long as truthy values only are stored, the first key of the cache,
    the one [set] evicts, is the least recently used one. *)
Lemma first_is_least_recently_used (max : option JsNumber.t) history :
  LRUCache.storesTruthy truthy history ->
  let this := LRUCache.run truthy history (LRUCache.new max) in
  LRUCache.first this = LRUCache.leastRecentlyUsed history this /\
  NoDup (JSMap.keys (LRUCache.cache this)).
Proof.
  intros Hstores this.
  destruct (run_ordered history [] (LRUCache.new max)) as [Hsorted _].
  { split; constructor. }
  { exact Hstores. }
  cbn [app] in Hsorted. fold this in Hsorted. split.
  - unfold LRUCache.leastRecentlyUsed. rewrite (oldestOf_oldestFirst _ _ Hsorted).
    unfold LRUCache.first. now destruct (JSMap.keys (LRUCache.cache this)).
  - exact (oldestFirst_NoDup _ _ Hsorted).
Qed.

(** On a full cache, a [set] of a key that is not stored removes the first
    key, and it alone, before the new key is put last. *)
Lemma set_on_full_cache key val this oldest others :
  JSMap.has key (LRUCache.cache this) = false ->
  JsNumber.geb (JsNumber.ofZ (JSMap.size (LRUCache.cache this)))
    (LRUCache.max this) = true ->
  JSMap.keys (LRUCache.cache this) = oldest :: others ->
  NoDup (JSMap.keys (LRUCache.cache this)) ->
  JSMap.keys (LRUCache.cache (LRUCache.set key val this)) = others ++ [key].
Proof.
  intros Hfresh Hfull Hkeys Hnodup.
  unfold LRUCache.set, LRUCache.first. rewrite Hfresh, Hfull, Hkeys.
  cbn [LRUCache.cache].
  rewrite JSMap_set_fresh by now apply JSMap_has_delete_other.
  unfold JSMap.keys at 1. rewrite map_app. cbn [map fst]. f_equal.
  fold (JSMap.keys (JSMap.delete oldest (LRUCache.cache this))).
  rewrite JSMap_keys_delete, Hkeys. cbn [filter].
  rewrite String.eqb_refl. cbn [negb].
  rewrite Hkeys in Hnodup. apply NoDup_cons_iff in Hnodup as [Hnotin _].
  apply forallb_filter_id. apply forallb_forall. intros k Hin.
  destruct (String.eqb_spec k oldest) as [->|_]; [contradiction|reflexivity].
Qed.

End Recency.

(** ** The cache as a whole *)

(** For a cache of capacity [max >= 1] that is stored truthy values only:
    it never holds more than [max] entries, and a [set] of a new key on a
    full cache removes exactly the least recently used key and puts the new
    key last. *)
Lemma cache_bounded_and_evicts_oldest {T : Type} (truthy : T -> bool) (max : Z)
  (history : list (LRUCache.Operation T)) (key : string) (val : T) :
  (1 <= max)%Z ->
  LRUCache.storesTruthy truthy history ->
  let this :=
    LRUCache.run truthy history (LRUCache.new (Some (JsNumber.ofZ max))) in
  (JSMap.size (LRUCache.cache this) <= max)%Z /\
  (JSMap.has key (LRUCache.cache this) = false ->
   JSMap.size (LRUCache.cache this) = max ->
   exists oldest others,
     JSMap.keys (LRUCache.cache this) = oldest :: others /\
     LRUCache.leastRecentlyUsed history this = Some oldest /\
     JSMap.keys (LRUCache.cache (LRUCache.set key val this)) = others ++ [key]).
Proof.
  intros Hmax Hstores this.
  split; [now apply size_bounded|].
  intros Hfresh Hfull.
  destruct (first_is_least_recently_used truthy (Some (JsNumber.ofZ max)) history
              Hstores) as [Hfirst Hnodup].
  fold this in Hfirst, Hnodup.
  assert (Hmaxthis : LRUCache.max this = JsNumber.ofZ max).
  { unfold this. now rewrite run_keeps_max. }
  destruct (JSMap.keys (LRUCache.cache this)) as [|oldest others] eqn:Hkeys.
  { unfold JSMap.size, JSMap.keys in *.
    destruct (LRUCache.cache this); [cbn in Hfull; lia|discriminate]. }
  exists oldest, others. split; [reflexivity|]. split.
  - rewrite <- Hfirst. unfold LRUCache.first. now rewrite Hkeys.
  - apply (set_on_full_cache key val this oldest others Hfresh); trivial.
    + rewrite Hmaxthis, Hfull, geb_ofZ. apply Z.leb_refl.
    + now rewrite Hkeys.
Qed.

(** C10 at a stored [0]: the cache of capacity 2 is written ["a"] with [0],
    then ["b"], then ["a"] is read; the read returns the stored [0], which
    is falsy, and the key stays first; the least recently used key is then
    ["b"], and the [set] of ["c"] evicts ["a"]. *)
Theorem get_of_falsy_value_is_not_a_use :
  let number := LRUCache.truthyNumber in
  let written := [LRUCache.OpSet "a" 0%Z; LRUCache.OpSet "b" 1%Z] in
  let history := written ++ [LRUCache.OpGet "a"] in
  let capacity := Some (JsNumber.ofZ 2) in
  let this := LRUCache.run number history (LRUCache.new capacity) in
  fst (LRUCache.get number "a" (LRUCache.run number written (LRUCache.new capacity)))
    = Some 0%Z /\
  LRUCache.leastRecentlyUsed history this = Some "b" /\
  LRUCache.first this = Some "a" /\
  JSMap.keys (LRUCache.cache (LRUCache.set "c" 2%Z this)) = ["b"; "c"].
Proof. repeat split. Qed.

(** * Further properties of deploy.ts *)

(** ** All the runs of the two paths and of a deployment *)
Section DeploymentRuns.

Context {Remote : Type}.
Variable client : Lambda.LambdaClient Remote.
Variable getConfig : MedplumServerConfig.
Variable generateAsync : JSZip.t -> Completion (list Byte.byte).

Ltac run_async :=
  cbv beta iota zeta delta
    [updateLambda createLambda getLayerVersion lambdaExists deployLambda
     createZipFile logger await settle resolve reject tryCatch send].

Ltac normal_world := cbv beta iota; cbn [remote sent logged fst snd threw negb].

Ltac platform_answer operation :=
  normal_world;
  match goal with
  | |- context [operation ?c ?i ?r] =>
      let E := fresh "Answer" in
      destruct (operation c i r) as [[?err|?out] ?r'] eqn:E; normal_world
  end.

Ltac completion_value f :=
  match goal with
  | |- context [f ?a ?b] => destruct (f a b) as [?err|?v] eqn:?; normal_world
  | |- context [f ?a] => destruct (f a) as [?err|?v] eqn:?; normal_world
  end.

(** The log grew by the exchanges listed, and they are one of the ways the
    run may end. *)
Ltac ends_with way :=
  eexists; split; [rewrite <- ?app_assoc; reflexivity|];
  cbn [app]; try (split; [reflexivity|]); eapply way.

Lemma createLambda_outcome (name : string) (zipFile : list Byte.byte)
  (w : World Remote) :
  exists log,
    sent (snd (createLambda client getConfig name zipFile w)) = sent w ++ log /\
    logged (snd (createLambda client getConfig name zipFile w)) = logged w /\
    createOutcome getConfig name zipFile
      (fst (createLambda client getConfig name zipFile w)) log.
Proof.
  run_async.
  platform_answer (@Lambda.listLayerVersions Remote).
  { ends_with create_list_rejected. }
  completion_value firstLayerVersionArn.
  { unfold firstLayerVersionArn in *.
    destruct (Lambda.ListLayerVersions.LayerVersions out) as [[|item rest]|];
      try discriminate.
    match goal with H : inl _ = inl _ |- _ => injection H as <- end.
    ends_with create_no_version. }
  platform_answer (@Lambda.createFunction Remote).
  - ends_with create_rejected.
  - ends_with create_done.
Qed.

Lemma updateLambda_outcome (name : string) (zipFile : list Byte.byte)
  (w : World Remote) :
  exists log,
    sent (snd (updateLambda client getConfig name zipFile w)) = sent w ++ log /\
    logged (snd (updateLambda client getConfig name zipFile w)) = logged w /\
    updateOutcome getConfig name zipFile
      (fst (updateLambda client getConfig name zipFile w)) log.
Proof.
  run_async.
  platform_answer (@Lambda.listLayerVersions Remote).
  { ends_with update_list_rejected. }
  completion_value firstLayerVersionArn.
  { unfold firstLayerVersionArn in *.
    destruct (Lambda.ListLayerVersions.LayerVersions out) as [[|item rest]|];
      try discriminate.
    match goal with H : inl _ = inl _ |- _ => injection H as <- end.
    ends_with update_no_version. }
  platform_answer (@Lambda.getFunctionConfiguration Remote).
  { ends_with update_query_rejected. }
  completion_value configurationDiffers.
  { match goal with
    | H : configurationDiffers ?c ?l = inl ?e |- _ =>
        assert (e = TypeError_undefined "Arn") as ->
    end.
    { unfold configurationDiffers, firstLayerArn in *.
      repeat match goal with
             | H : context [if ?b then _ else _] |- _ => destruct b
             end; try discriminate.
      destruct (Lambda.Layers out0) as [[|layer rest]|]; try discriminate.
      congruence. }
    ends_with update_comparison_throws. }
  destruct v0.
  - platform_answer (@Lambda.updateFunctionConfiguration Remote).
    { ends_with update_configuration_rejected. }
    platform_answer (@Lambda.updateFunctionCode Remote).
    + ends_with update_reconfigured_code_rejected.
    + ends_with update_reconfigured_done.
  - platform_answer (@Lambda.updateFunctionCode Remote).
    + ends_with update_code_rejected.
    + ends_with update_done.
Qed.

(** The probe: one exchange, acknowledged when the answer is [true]. *)
Lemma lambdaExists_exchange (name : string) (w : World Remote) :
  exists (found ack : bool) (w' : World Remote),
    lambdaExists client name w = (inr found, w') /\
    sent w' = sent w ++ [exchanged ack (probeRequest name)] /\
    logged w' = logged w /\
    (found = true -> ack = true).
Proof.
  run_async.
  platform_answer (@Lambda.getFunction Remote);
    eexists _, _, _; (split; [reflexivity|]); repeat split; discriminate.
Qed.

(** A deployment whose archive is built writes its two lines to the logger,
    asks the prober and ends in one of the ways of [deployOutcome]. *)
Lemma deployLambda_outcome (name code : string) (zipFile : list Byte.byte)
  (w : World Remote) :
  fst (createZipFile generateAsync code w) = inr zipFile ->
  exists log,
    sent (snd (deployLambda client getConfig generateAsync name code w)) =
      sent w ++ log /\
    logged (snd (deployLambda client getConfig generateAsync name code w)) =
      logged w ++
      [(INFO, ("Deploying lambda function for bot: " ++ name)%string);
       (DEBUG, ("Lambda function zip size: "
                  ++ numberToString (length zipFile))%string)] /\
    deployOutcome getConfig name zipFile
      (fst (deployLambda client getConfig generateAsync name code w)) log.
Proof.
  intros Hzip.
  cbv beta iota zeta delta [deployLambda await logger createZipFile settle]
    in Hzip |- *.
  cbn [fst] in Hzip. rewrite Hzip. cbn [remote sent logged].
  match goal with
  | |- context [lambdaExists client name ?w0] =>
      destruct (lambdaExists_exchange name w0)
        as (found & ack & w1 & Hprobe & Hsent & Hlogged & Hack);
      rewrite Hprobe
  end.
  cbn [sent logged] in Hsent, Hlogged.
  destruct found; cbn [negb].
  - destruct (updateLambda_outcome name zipFile w1) as (log & Hlog & Hlines & Hway).
    rewrite (Hack eq_refl) in Hsent.
    exists (exchanged true (probeRequest name) :: log).
    rewrite Hlog, Hsent, Hlines, Hlogged, <- !app_assoc.
    repeat split. now apply deploy_updates.
  - destruct (createLambda_outcome name zipFile w1) as (log & Hlog & Hlines & Hway).
    exists (exchanged ack (probeRequest name) :: log).
    rewrite Hlog, Hsent, Hlines, Hlogged, <- !app_assoc.
    repeat split. now apply deploy_creates.
Qed.

(** A deployment whose archive cannot be built has no exchange. *)
Lemma deployLambda_unpackaged (name code : string) (w : World Remote) (err : JsError) :
  fst (createZipFile generateAsync code w) = inl err ->
  fst (deployLambda client getConfig generateAsync name code w) = inl err /\
  sentSince w (snd (deployLambda client getConfig generateAsync name code w)) = [].
Proof.
  run_async. cbn [fst snd]. intros ->. cbn [fst snd].
  split; [reflexivity|]. now apply sentSince_refl.
Qed.

Lemma deployOutcome_belongs (name : string) (zipFile : list Byte.byte)
  (outcome : Completion unit) (log : list Exchange) :
  deployOutcome getConfig name zipFile outcome log ->
  Forall (belongsToDeployment getConfig name zipFile) (map request log).
Proof.
  intros [ack o l H | o l H]; destruct H; cbn [map request exchanged];
    repeat constructor; eexists; reflexivity.
Qed.

(** ** What a deployment requests *)

(** X1: every request of a deployment addresses the function of the
    deployment, with the archive that was built from the code, or lists the
    versions of the configured layer. *)
Theorem deployLambda_requests_belong (name code : string) (w : World Remote) :
  Forall
    (fun command =>
       exists zipFile,
         fst (createZipFile generateAsync code w) = inr zipFile /\
         belongsToDeployment getConfig name zipFile command)
    (requestsSince w (snd (deployLambda client getConfig generateAsync name code w))).
Proof.
  destruct (fst (createZipFile generateAsync code w)) as [err|zipFile] eqn:Hzip.
  - unfold requestsSince.
    rewrite (proj2 (deployLambda_unpackaged name code w err Hzip)). constructor.
  - destruct (deployLambda_outcome name code zipFile w Hzip)
      as (log & Hlog & _ & Hway).
    rewrite (requestsSince_app _ _ _ Hlog).
    eapply Forall_impl; [|exact (deployOutcome_belongs _ _ _ _ Hway)].
    intros command H. now exists zipFile.
Qed.

(** X2: a deployment requests at most one creation, at most one
    configuration update and at most one code update, never a creation
    together with a request of the update path, and at most five requests
    in all; when it requests anything, it starts with the probe and the
    list of layer versions. *)
Theorem deployLambda_at_most_one_of_each (name code : string) (w : World Remote) :
  let requests :=
    requestsSince w (snd (deployLambda client getConfig generateAsync name code w)) in
  length (filter Lambda.isCreateFunction requests) <= 1 /\
  length (filter Lambda.isUpdateFunctionConfiguration requests) <= 1 /\
  length (filter Lambda.isUpdateFunctionCode requests) <= 1 /\
  (existsb Lambda.isCreateFunction requests = true ->
   existsb (fun c => Lambda.isGetFunctionConfiguration c
                     || Lambda.isUpdateFunctionConfiguration c
                     || Lambda.isUpdateFunctionCode c) requests = false) /\
  length requests <= 5 /\
  (requests = [] \/
   exists rest,
     requests = probeRequest name :: listRequest getConfig :: rest).
Proof.
  intros requests. subst requests.
  destruct (fst (createZipFile generateAsync code w)) as [err|zipFile] eqn:Hzip.
  - unfold requestsSince.
    rewrite (proj2 (deployLambda_unpackaged name code w err Hzip)).
    cbn. repeat split; try lia; try discriminate. now left.
  - destruct (deployLambda_outcome name code zipFile w Hzip)
      as (log & Hlog & _ & Hway).
    rewrite (requestsSince_app _ _ _ Hlog).
    destruct Hway as [ack o l H | o l H]; destruct H; cbn;
      repeat split; try lia; try discriminate; try reflexivity;
      right; eexists; reflexivity.
Qed.

(** X3: a deployment that resolves has had all its requests after the probe
    acknowledged, and the last of them is the creation or the code update
    with the archive built from the code: its exchanges are one of three
    lists. *)
Theorem deployLambda_success_means_published (name code : string)
  (w : World Remote) :
  fst (deployLambda client getConfig generateAsync name code w) = inr tt ->
  exists zipFile,
    fst (createZipFile generateAsync code w) = inr zipFile /\
    let log :=
      sentSince w (snd (deployLambda client getConfig generateAsync name code w)) in
    let answered := exchanged true in
    (exists ack layerVersion,
       log = [exchanged ack (probeRequest name);
              answered (listRequest getConfig);
              answered (createRequest getConfig name zipFile layerVersion)]) \/
    log = [answered (probeRequest name);
           answered (listRequest getConfig);
           answered (configurationRequest name);
           answered (codeRequest name zipFile)] \/
    (exists layerVersion,
       log = [answered (probeRequest name);
              answered (listRequest getConfig);
              answered (configurationRequest name);
              answered (reconfigureRequest getConfig name layerVersion);
              answered (codeRequest name zipFile)]).
Proof.
  intros Hdone.
  destruct (fst (createZipFile generateAsync code w)) as [err|zipFile] eqn:Hzip.
  { rewrite (proj1 (deployLambda_unpackaged name code w err Hzip)) in Hdone.
    discriminate. }
  exists zipFile. split; [reflexivity|].
  destruct (deployLambda_outcome name code zipFile w Hzip)
    as (log & Hlog & _ & Hway).
  cbv zeta. rewrite (sentSince_app _ _ _ Hlog). rewrite Hdone in Hway.
  inversion Hway as [ack o l H | o l H]; subst; inversion H; subst.
  - left. eexists _, _. reflexivity.
  - right; right. eexists. reflexivity.
  - right; left. reflexivity.
Qed.

(** X4: in a deployment that fails, no creation and no code update has been
    acknowledged: the code of a failed deployment is not published. *)
Theorem deployLambda_failure_means_unpublished (name code : string)
  (w : World Remote) (err : JsError) :
  fst (deployLambda client getConfig generateAsync name code w) = inl err ->
  Forall
    (fun e =>
       Lambda.isCreateFunction (request e) || Lambda.isUpdateFunctionCode (request e)
       = true ->
       acknowledged e = false)
    (sentSince w (snd (deployLambda client getConfig generateAsync name code w))).
Proof.
  intros Hfails.
  destruct (fst (createZipFile generateAsync code w)) as [err'|zipFile] eqn:Hzip.
  { rewrite (proj2 (deployLambda_unpackaged name code w err' Hzip)). constructor. }
  destruct (deployLambda_outcome name code zipFile w Hzip)
    as (log & Hlog & _ & Hway).
  rewrite (sentSince_app _ _ _ Hlog). rewrite Hfails in Hway.
  inversion Hway as [ack o l H | o l H]; subst; inversion H; subst;
    repeat constructor; cbn; intros; congruence.
Qed.

(** X18: a deployment that fails has stopped at the failure: either the
    archive could not be built and nothing was requested, or every exchange
    between the probe and the last one was acknowledged, and the last
    request was rejected unless the error is the [TypeError] of a read in
    an empty list. *)
Theorem deployLambda_fails_fast (name code : string) (w : World Remote)
  (err : JsError) :
  fst (deployLambda client getConfig generateAsync name code w) = inl err ->
  let log :=
    sentSince w (snd (deployLambda client getConfig generateAsync name code w)) in
  (log = [] /\ fst (createZipFile generateAsync code w) = inl err) \/
  (Forall (fun e => acknowledged e = true) (removelast (tl log)) /\
   (acknowledged (last log (exchanged true (probeRequest name))) = false \/
    err = TypeError_undefined "LayerVersionArn" \/
    err = TypeError_undefined "Arn")).
Proof.
  intros Hfails log. subst log.
  destruct (fst (createZipFile generateAsync code w)) as [err'|zipFile] eqn:Hzip.
  { left. destruct (deployLambda_unpackaged name code w err' Hzip) as [Herr Hlog].
    split; [exact Hlog|]. congruence. }
  right.
  destruct (deployLambda_outcome name code zipFile w Hzip)
    as (log & Hlog & _ & Hway).
  rewrite (sentSince_app _ _ _ Hlog). rewrite Hfails in Hway.
  inversion Hway as [ack o l H | o l H]; subst; inversion H; subst;
    cbn [tl removelast last exchanged acknowledged];
    (split; [repeat constructor|]); auto.
Qed.

(** X5: a deployment whose archive is built writes two lines to the logger,
    the announcement and the size of the archive, whatever the platform
    answers afterwards. *)
Theorem deployLambda_logs_size (name code : string) (zipFile : list Byte.byte)
  (w : World Remote) :
  fst (createZipFile generateAsync code w) = inr zipFile ->
  logged (snd (deployLambda client getConfig generateAsync name code w)) =
  logged w ++
  [(INFO, ("Deploying lambda function for bot: " ++ name)%string);
   (DEBUG, ("Lambda function zip size: " ++ numberToString (length zipFile))%string)].
Proof.
  intros Hzip.
  destruct (deployLambda_outcome name code zipFile w Hzip) as (log & _ & Hlines & _).
  exact Hlines.
Qed.

(** ** The update path, by the answers of the platform *)

Lemma configurationDiffers_has_value functionConfig layerVersion :
  Lambda.Layers functionConfig <> Some [] ->
  exists differs, configurationDiffers functionConfig layerVersion = inr differs.
Proof.
  intros Hlayers.
  destruct (configurationDiffers functionConfig layerVersion) as [err|differs] eqn:E;
    [|now exists differs].
  exfalso. apply Hlayers.
  apply (proj1 (configurationDiffers_throws functionConfig layerVersion)).
  now exists err.
Qed.

(** X6: when both queries of [updateLambda] are answered and the list of
    layers of the function is absent or not empty, the configuration update
    is requested exactly when the runtime, the handler or the reference of
    the first layer is not the desired one, and a configuration update that
    is requested carries the desired configuration. *)
Theorem updateLambda_reconfigures_iff_differs (name : string)
  (zipFile : list Byte.byte) (w : World Remote)
  (response : Lambda.ListLayerVersions.Output) (r1 r2 : Remote)
  (layerVersion : option string) (functionConfig : Lambda.FunctionConfiguration) :
  Lambda.listLayerVersions client (listLayerVersionsInput getConfig) (remote w) =
    (inr response, r1) ->
  firstLayerVersionArn response = inr layerVersion ->
  Lambda.getFunctionConfiguration client
    {| Lambda.GetFunctionConfiguration.FunctionName := name |} r1 =
    (inr functionConfig, r2) ->
  Lambda.Layers functionConfig <> Some [] ->
  let requests :=
    requestsSince w (snd (updateLambda client getConfig name zipFile w)) in
  (differsFromDesired functionConfig layerVersion <->
   In (reconfigureRequest getConfig name layerVersion) requests) /\
  (forall input,
     In (Lambda.UpdateFunctionConfigurationCommand input) requests ->
     input = updateFunctionConfigurationInput getConfig name layerVersion).
Proof.
  intros Hlist Hfirst Hconfig Hlayers requests. subst requests.
  destruct (configurationDiffers_has_value functionConfig layerVersion Hlayers)
    as [differs Hdiffers].
  rewrite (updateLambda_requests client getConfig name zipFile w _ _ _ _ _ _
             Hlist Hfirst Hconfig Hdiffers).
  cbv zeta. pose proof (configurationDiffers_value _ _ _ Hdiffers) as Hvalue.
  rewrite <- Hvalue. unfold reconfigureRequest.
  destruct differs; cbn [andb app]; (destruct (threw _) || idtac); cbn [In];
    (split; [split|]); intros; try reflexivity; try discriminate;
    repeat match goal with
           | H : _ \/ _ |- _ => destruct H
           | H : False |- _ => destruct H
           | H : _ = _ |- _ => discriminate H
           | H : Lambda.UpdateFunctionConfigurationCommand _ =
                 Lambda.UpdateFunctionConfigurationCommand _ |- _ =>
               injection H as <-
           end;
    try reflexivity; auto.
Qed.

(** X7: when both queries are answered, [updateLambda] stops after them,
    without any update, exactly when the function has the desired runtime
    and handler and an empty list of layers. *)
Theorem updateLambda_stops_after_queries_iff (name : string)
  (zipFile : list Byte.byte) (w : World Remote)
  (response : Lambda.ListLayerVersions.Output) (r1 r2 : Remote)
  (layerVersion : option string) (functionConfig : Lambda.FunctionConfiguration) :
  Lambda.listLayerVersions client (listLayerVersionsInput getConfig) (remote w) =
    (inr response, r1) ->
  firstLayerVersionArn response = inr layerVersion ->
  Lambda.getFunctionConfiguration client
    {| Lambda.GetFunctionConfiguration.FunctionName := name |} r1 =
    (inr functionConfig, r2) ->
  (requestsSince w (snd (updateLambda client getConfig name zipFile w)) =
     [listRequest getConfig; configurationRequest name] <->
   Lambda.Runtime functionConfig = Some LAMBDA_RUNTIME /\
   Lambda.Handler functionConfig = Some LAMBDA_HANDLER /\
   Lambda.Layers functionConfig = Some []).
Proof.
  intros Hlist Hfirst Hconfig.
  rewrite <- (configurationDiffers_throws functionConfig layerVersion).
  destruct (configurationDiffers functionConfig layerVersion) as [err|differs]
    eqn:Hdiffers.
  - split; [intros _; now exists err|intros _].
    run_async. rewrite Hlist. normal_world. rewrite Hfirst. normal_world.
    rewrite Hconfig. normal_world. rewrite Hdiffers. normal_world.
    erewrite requestsSince_app by (cbn [sent]; rewrite <- ?app_assoc; reflexivity).
    reflexivity.
  - rewrite (updateLambda_requests client getConfig name zipFile w _ _ _ _ _ _
               Hlist Hfirst Hconfig Hdiffers).
    cbv zeta. split; [|intros [err H]; discriminate].
    destruct differs; cbn [andb app]; (destruct (threw _) || idtac);
      intros H; discriminate H.
Qed.

(** X8: when the configuration update is rejected, [updateLambda] rejects
    with the error of the platform and requests no code update: the function
    keeps its code. *)
Theorem updateLambda_rejected_reconfiguration (name : string)
  (zipFile : list Byte.byte) (w : World Remote)
  (response : Lambda.ListLayerVersions.Output) (r1 r2 r3 : Remote)
  (layerVersion : option string) (functionConfig : Lambda.FunctionConfiguration)
  (err : JsError) :
  Lambda.listLayerVersions client (listLayerVersionsInput getConfig) (remote w) =
    (inr response, r1) ->
  firstLayerVersionArn response = inr layerVersion ->
  Lambda.getFunctionConfiguration client
    {| Lambda.GetFunctionConfiguration.FunctionName := name |} r1 =
    (inr functionConfig, r2) ->
  configurationDiffers functionConfig layerVersion = inr true ->
  Lambda.updateFunctionConfiguration client
    (updateFunctionConfigurationInput getConfig name layerVersion) r2 =
    (inl err, r3) ->
  updateLambda client getConfig name zipFile w =
  (inl err,
   {| remote := r3;
      sent := sent w ++
        [exchanged true (listRequest getConfig);
         exchanged true (configurationRequest name);
         exchanged false (reconfigureRequest getConfig name layerVersion)];
      logged := logged w |}).
Proof.
  intros Hlist Hfirst Hconfig Hdiffers Hrejected.
  run_async. rewrite Hlist. normal_world. rewrite Hfirst. normal_world.
  rewrite Hconfig. normal_world. rewrite Hdiffers. normal_world.
  rewrite Hrejected. normal_world. rewrite <- !app_assoc. reflexivity.
Qed.

(** ** The creation path, by the answers of the platform *)

(** X9: an answer without the list of versions is not a failure:
    [getLayerVersion] resolves to [undefined], and [createLambda] requests
    the creation with [undefined] as the layer. *)
Theorem createLambda_absent_version_list (name : string)
  (zipFile : list Byte.byte) (w : World Remote)
  (response : Lambda.ListLayerVersions.Output) (r1 : Remote) :
  Lambda.listLayerVersions client (listLayerVersionsInput getConfig) (remote w) =
    (inr response, r1) ->
  Lambda.ListLayerVersions.LayerVersions response = None ->
  fst (getLayerVersion client getConfig w) = inr None /\
  requestsSince w (snd (createLambda client getConfig name zipFile w)) =
    [listRequest getConfig; createRequest getConfig name zipFile None].
Proof.
  intros Hlist Habsent.
  assert (Hresolved : fst (getLayerVersion client getConfig w) = inr None).
  { rewrite getLayerVersion_run. cbv zeta. rewrite Hlist. cbn [fst].
    unfold firstLayerVersionArn. now rewrite Habsent. }
  split; [exact Hresolved|].
  pose proof (createLambda_requests client getConfig name zipFile w) as H.
  cbv zeta in H. rewrite Hresolved in H. exact H.
Qed.

(** X10: when the probe is rejected, whatever the error, the deployment
    takes the creation path, and when the platform then rejects the
    creation, the deployment fails with the error of the creation. *)
Theorem deployLambda_probe_rejected_then_creation_rejected (name code : string)
  (zipFile : list Byte.byte) (w : World Remote)
  (probeError creationError : JsError)
  (response : Lambda.ListLayerVersions.Output) (layerVersion : option string)
  (r1 r2 r3 : Remote) :
  fst (createZipFile generateAsync code w) = inr zipFile ->
  Lambda.getFunction client {| Lambda.GetFunction.FunctionName := name |}
    (remote w) = (inl probeError, r1) ->
  Lambda.listLayerVersions client (listLayerVersionsInput getConfig) r1 =
    (inr response, r2) ->
  firstLayerVersionArn response = inr layerVersion ->
  Lambda.createFunction client
    (createFunctionInput getConfig name zipFile layerVersion) r2 =
    (inl creationError, r3) ->
  fst (deployLambda client getConfig generateAsync name code w) =
    inl creationError /\
  sentSince w (snd (deployLambda client getConfig generateAsync name code w)) =
    [exchanged false (probeRequest name);
     exchanged true (listRequest getConfig);
     exchanged false (createRequest getConfig name zipFile layerVersion)].
Proof.
  intros Hzip Hprobe Hlist Hfirst Hcreate.
  cbv beta iota zeta delta [createZipFile settle] in Hzip. cbn [fst] in Hzip.
  run_async. rewrite Hzip. normal_world.
  rewrite Hprobe. normal_world. rewrite Hlist. normal_world.
  rewrite Hfirst. normal_world. rewrite Hcreate. normal_world.
  split; [reflexivity|].
  apply sentSince_app. cbn [sent]. rewrite <- !app_assoc. reflexivity.
Qed.

(** ** The path of a deployment *)

Lemma requestsSince_trans (w w1 w' : World Remote) (l1 l2 : list Exchange) :
  sent w1 = sent w ++ l1 ->
  sent w' = sent w1 ++ l2 ->
  requestsSince w w' = requestsSince w w1 ++ requestsSince w1 w'.
Proof.
  intros H1 H2.
  rewrite (requestsSince_app _ _ _ H1), (requestsSince_app _ _ _ H2).
  rewrite H1, <- app_assoc in H2.
  rewrite (requestsSince_app _ _ _ H2). apply map_app.
Qed.

(** The requests of an [updateLambda]: the list query alone when no layer
    version is resolved; else the list query, the configuration query and
    then updates only. *)
Lemma updateLambda_requests_by_resolution (name : string)
  (zipFile : list Byte.byte) (w : World Remote) :
  let w' := snd (updateLambda client getConfig name zipFile w) in
  match fst (getLayerVersion client getConfig w) with
  | inl err =>
      fst (updateLambda client getConfig name zipFile w) = inl err /\
      requestsSince w w' = [listRequest getConfig]
  | inr layerVersion =>
      exists rest,
        requestsSince w w' =
          listRequest getConfig :: configurationRequest name :: rest /\
        Forall (fun c => Lambda.isUpdateFunctionConfiguration c
                         || Lambda.isUpdateFunctionCode c = true) rest
  end.
Proof.
  run_async.
  platform_answer (@Lambda.listLayerVersions Remote).
  { split; [reflexivity|].
    erewrite requestsSince_app by (cbn [sent]; rewrite <- ?app_assoc; reflexivity).
    reflexivity. }
  completion_value firstLayerVersionArn.
  { split; [reflexivity|].
    erewrite requestsSince_app by (cbn [sent]; rewrite <- ?app_assoc; reflexivity).
    reflexivity. }
  assert (Hlog : forall (world : World Remote) (l : list Exchange) rest,
            sent world =
              sent w ++ exchanged true (listRequest getConfig) :: l ->
            map request l = configurationRequest name :: rest ->
            Forall (fun c => Lambda.isUpdateFunctionConfiguration c
                             || Lambda.isUpdateFunctionCode c = true) rest ->
            exists rest,
              requestsSince w world =
                listRequest getConfig :: configurationRequest name :: rest /\
              Forall (fun c => Lambda.isUpdateFunctionConfiguration c
                               || Lambda.isUpdateFunctionCode c = true) rest).
  { intros world l rest Hsent Hmap Hrest. exists rest.
    rewrite (requestsSince_app _ _ _ Hsent). cbn [map request exchanged].
    now rewrite Hmap. }
  platform_answer (@Lambda.getFunctionConfiguration Remote).
  { eapply Hlog;
      [cbn [sent]; rewrite <- ?app_assoc; reflexivity|reflexivity|constructor]. }
  completion_value configurationDiffers.
  { eapply Hlog;
      [cbn [sent]; rewrite <- ?app_assoc; reflexivity|reflexivity|constructor]. }
  destruct v0.
  - platform_answer (@Lambda.updateFunctionConfiguration Remote).
    { eapply Hlog;
        [cbn [sent]; rewrite <- ?app_assoc; reflexivity|reflexivity
        |repeat constructor]. }
    platform_answer (@Lambda.updateFunctionCode Remote);
      (eapply Hlog;
        [cbn [sent]; rewrite <- ?app_assoc; reflexivity|reflexivity
        |repeat constructor]).
  - platform_answer (@Lambda.updateFunctionCode Remote);
      (eapply Hlog;
        [cbn [sent]; rewrite <- ?app_assoc; reflexivity|reflexivity
        |repeat constructor]).
Qed.

(** A deployment whose archive is built asks the prober and goes on as the
    path of its answer. *)
Lemma deployLambda_after_probe (name code : string) (zipFile : list Byte.byte)
  (w : World Remote) :
  fst (createZipFile generateAsync code w) = inr zipFile ->
  let w0 :=
    {| remote := remote w;
       sent := sent w;
       logged :=
         (logged w ++ [(INFO, ("Deploying lambda function for bot: " ++ name)%string)])
         ++ [(DEBUG, ("Lambda function zip size: "
                        ++ numberToString (length zipFile))%string)] |} in
  exists (found ack : bool) (w1 : World Remote),
    lambdaExists client name w0 = (inr found, w1) /\
    sent w1 = sent w ++ [exchanged ack (probeRequest name)] /\
    deployLambda client getConfig generateAsync name code w =
    if found
    then updateLambda client getConfig name zipFile w1
    else createLambda client getConfig name zipFile w1.
Proof.
  intros Hzip w0.
  destruct (lambdaExists_exchange name w0)
    as (found & ack & w1 & Hprobe & Hsent & _ & _).
  exists found, ack, w1. split; [exact Hprobe|]. split; [exact Hsent|].
  cbv beta iota zeta delta [deployLambda await logger createZipFile settle]
    in Hzip |- *.
  cbn [fst] in Hzip. rewrite Hzip. cbn [remote sent logged].
  fold w0. rewrite Hprobe. destruct found; reflexivity.
Qed.

(** C2, amended: a deployment whose archive cannot be built runs neither
    path: it fails without a request.  A deployment whose archive is built
    asks the prober once and runs exactly one path.  On [false] it goes on
    as [createLambda]: after the probe it requests the list of layer
    versions and then, the layer version resolved, exactly one creation,
    and nothing else.  On [true] it goes on as [updateLambda]: after the
    probe it requests the list of layer versions and then, the layer
    version resolved, the configuration of the function and updates only,
    never a creation.  On either path, when no layer version is resolved
    the deployment fails after the list query. *)
Theorem deployLambda_runs_path_of_prober (name code : string) (w : World Remote) :
  let deployment := deployLambda client getConfig generateAsync name code w in
  let requests := requestsSince w (snd deployment) in
  match fst (createZipFile generateAsync code w) with
  | inl err => fst deployment = inl err /\ requests = []
  | inr zipFile =>
      let w0 :=
        {| remote := remote w;
           sent := sent w;
           logged :=
             (logged w
                ++ [(INFO, ("Deploying lambda function for bot: " ++ name)%string)])
             ++ [(DEBUG, ("Lambda function zip size: "
                            ++ numberToString (length zipFile))%string)] |} in
      exists (found : bool) (w1 : World Remote),
        lambdaExists client name w0 = (inr found, w1) /\
        requestsSince w w1 = [probeRequest name] /\
        (found = false ->
         deployment = createLambda client getConfig name zipFile w1 /\
         match fst (getLayerVersion client getConfig w1) with
         | inr layerVersion =>
             requests =
               [probeRequest name; listRequest getConfig;
                createRequest getConfig name zipFile layerVersion]
         | inl err =>
             fst deployment = inl err /\
             requests = [probeRequest name; listRequest getConfig]
         end) /\
        (found = true ->
         deployment = updateLambda client getConfig name zipFile w1 /\
         match fst (getLayerVersion client getConfig w1) with
         | inr layerVersion =>
             exists updates,
               requests =
                 probeRequest name :: listRequest getConfig
                 :: configurationRequest name :: updates /\
               Forall (fun c => Lambda.isUpdateFunctionConfiguration c
                                || Lambda.isUpdateFunctionCode c = true) updates
         | inl err =>
             fst deployment = inl err /\
             requests = [probeRequest name; listRequest getConfig]
         end)
  end.
Proof.
  intros deployment requests.
  destruct (fst (createZipFile generateAsync code w)) as [err|zipFile] eqn:Hzip.
  { destruct (deployLambda_unpackaged name code w err Hzip) as [Hfails Hnone].
    split; [exact Hfails|]. subst requests deployment. unfold requestsSince.
    now rewrite Hnone. }
  intros w0.
  destruct (deployLambda_after_probe name code zipFile w Hzip)
    as (found & ack & w1 & Hprobe & Hsent & Hrun).
  fold w0 in Hprobe. fold deployment in Hrun.
  exists found, w1. split; [exact Hprobe|].
  split; [exact (requestsSince_app _ _ _ Hsent)|].
  split; intros ->; (split; [exact Hrun|]); subst requests; rewrite Hrun.
  - destruct (createLambda_outcome name zipFile w1) as (log & Hlog & _ & _).
    rewrite (requestsSince_trans w w1 _ _ _ Hsent Hlog).
    rewrite (requestsSince_app _ _ _ Hsent). cbn [map request exchanged app].
    pose proof (createLambda_requests client getConfig name zipFile w1) as Hpath.
    cbv zeta in Hpath.
    destruct (fst (getLayerVersion client getConfig w1)) as [err|layerVersion].
    + destruct Hpath as [Hfails ->]. split; [exact Hfails|reflexivity].
    + rewrite Hpath. reflexivity.
  - destruct (updateLambda_outcome name zipFile w1) as (log & Hlog & _ & _).
    rewrite (requestsSince_trans w w1 _ _ _ Hsent Hlog).
    rewrite (requestsSince_app _ _ _ Hsent). cbn [map request exchanged app].
    pose proof (updateLambda_requests_by_resolution name zipFile w1) as Hpath.
    cbv zeta in Hpath.
    destruct (fst (getLayerVersion client getConfig w1)) as [err|layerVersion].
    + destruct Hpath as [Hfails ->]. split; [exact Hfails|reflexivity].
    + destruct Hpath as (updates & -> & Hupdates).
      exists updates. split; [reflexivity|exact Hupdates].
Qed.

End DeploymentRuns.

(** * Further properties of the LRU cache *)

(** ** Lookups in the Map after a change *)
Section MapLookups.

Context {V : Type}.
Implicit Types (m : JSMap.t V) (key other : string) (val : V).

Lemma JSMap_get_set_same key val m :
  JSMap.get key (JSMap.set key val m) = Some val.
Proof.
  induction m as [|[k v] rest IH]; cbn [JSMap.set JSMap.get].
  - now rewrite String.eqb_refl.
  - destruct (String.eqb k key) eqn:E; cbn [JSMap.get].
    + now rewrite String.eqb_refl.
    + now rewrite E.
Qed.

Lemma JSMap_get_set_other key other val m :
  other <> key -> JSMap.get other (JSMap.set key val m) = JSMap.get other m.
Proof.
  intros Hother.
  induction m as [|[k v] rest IH]; cbn [JSMap.set JSMap.get].
  - destruct (String.eqb_spec key other); [congruence|reflexivity].
  - destruct (String.eqb_spec k key) as [->|Hk]; cbn [JSMap.get].
    + destruct (String.eqb_spec key other); [congruence|reflexivity].
    + now rewrite IH.
Qed.

Lemma JSMap_get_delete_same key m : JSMap.get key (JSMap.delete key m) = None.
Proof.
  pose proof (JSMap_get_has key (JSMap.delete key m)) as H.
  rewrite JSMap_has_delete in H.
  now destruct (JSMap.get key (JSMap.delete key m)).
Qed.

Lemma JSMap_get_delete_other key other m :
  other <> key -> JSMap.get other (JSMap.delete key m) = JSMap.get other m.
Proof.
  intros Hother. unfold JSMap.delete.
  induction m as [|[k v] rest IH]; cbn [filter fst JSMap.get]; [reflexivity|].
  destruct (String.eqb_spec k key) as [->|Hk]; cbn [negb JSMap.get].
  - destruct (String.eqb_spec key other); [congruence|exact IH].
  - now rewrite IH.
Qed.

End MapLookups.

(** ** Reads and writes of the cache *)
Section CacheContents.

Context {T : Type}.
Variable truthy : T -> bool.
Implicit Types (this : LRUCache.LRUCache T) (key other : string) (val : T).

Lemma get_returns_item key this :
  fst (LRUCache.get truthy key this) = JSMap.get key (LRUCache.cache this).
Proof.
  unfold LRUCache.get.
  destruct (JSMap.get key (LRUCache.cache this)) as [val|];
    [destruct (truthy val)|]; reflexivity.
Qed.

(** X11: [get] returns what is stored under the key, [undefined] when
    nothing is, and changes nothing of what is stored under any key. *)
Theorem get_reads_and_keeps_contents key this :
  fst (LRUCache.get truthy key this) = JSMap.get key (LRUCache.cache this) /\
  forall other,
    JSMap.get other (LRUCache.cache (snd (LRUCache.get truthy key this))) =
    JSMap.get other (LRUCache.cache this).
Proof.
  unfold LRUCache.get.
  destruct (JSMap.get key (LRUCache.cache this)) as [val|] eqn:Hget;
    [destruct (truthy val)|]; cbn [fst snd LRUCache.cache]; split;
    try reflexivity; try assumption.
  intros other. destruct (String.eqb_spec other key) as [->|Hother].
  - now rewrite JSMap_get_set_same.
  - now rewrite JSMap_get_set_other, JSMap_get_delete_other.
Qed.

(** The cache after a [set]: the entry is put last, behind entries that
    were there before, none of them under the key. *)
Lemma set_puts_last key val this :
  exists kept,
    LRUCache.cache (LRUCache.set key val this) = kept ++ [(key, val)] /\
    JSMap.has key kept = false /\
    (length kept <= length (LRUCache.cache this))%nat.
Proof.
  unfold LRUCache.set. cbn [LRUCache.cache].
  destruct (JSMap.has key (LRUCache.cache this)) eqn:Hhas.
  - exists (JSMap.delete key (LRUCache.cache this)).
    rewrite JSMap_set_fresh by apply JSMap_has_delete.
    repeat split; [apply JSMap_has_delete|apply JSMap_delete_length].
  - destruct (JsNumber.geb _ (LRUCache.max this));
      [destruct (LRUCache.first this) as [oldest|]|].
    + exists (JSMap.delete oldest (LRUCache.cache this)).
      rewrite JSMap_set_fresh by now apply JSMap_has_delete_other.
      repeat split;
        [now apply JSMap_has_delete_other|apply JSMap_delete_length].
    + exists (LRUCache.cache this). rewrite JSMap_set_fresh by exact Hhas. auto.
    + exists (LRUCache.cache this). rewrite JSMap_set_fresh by exact Hhas. auto.
Qed.

(** X12: a [get] after a [set] of the same key returns the value that was
    set, whatever the capacity and the value. *)
Theorem get_after_set key val this :
  fst (LRUCache.get truthy key (LRUCache.set key val this)) = Some val.
Proof.
  rewrite get_returns_item.
  unfold LRUCache.set. cbn [LRUCache.cache]. apply JSMap_get_set_same.
Qed.

(** What is stored under another key after a [set]. *)
Lemma set_lookup_other key other val this :
  other <> key ->
  JSMap.get other (LRUCache.cache (LRUCache.set key val this)) =
  if negb (JSMap.has key (LRUCache.cache this))
     && JsNumber.geb (JsNumber.ofZ (JSMap.size (LRUCache.cache this)))
          (LRUCache.max this)
     && match LRUCache.first this with
        | Some oldest => String.eqb oldest other
        | None => false
        end
  then None
  else JSMap.get other (LRUCache.cache this).
Proof.
  intros Hother. unfold LRUCache.set. cbn [LRUCache.cache].
  rewrite JSMap_get_set_other by exact Hother.
  destruct (JSMap.has key (LRUCache.cache this)); cbn [negb andb].
  - apply JSMap_get_delete_other. exact Hother.
  - destruct (JsNumber.geb _ (LRUCache.max this)); cbn [andb]; [|reflexivity].
    destruct (LRUCache.first this) as [oldest|]; [|reflexivity].
    destruct (String.eqb_spec oldest other) as [->|Holdest].
    + apply JSMap_get_delete_same.
    + apply JSMap_get_delete_other. congruence.
Qed.

(** X13: a [set] changes what is stored under another key in one case
    only: when the key set is new, the cache is full and the other key is
    the first one, that key is evicted; in every other case what is stored
    under the other key stays. *)
Theorem set_keeps_other_keys key other val this :
  other <> key ->
  (JSMap.has key (LRUCache.cache this) = false ->
   JsNumber.geb (JsNumber.ofZ (JSMap.size (LRUCache.cache this)))
     (LRUCache.max this) = true ->
   LRUCache.first this = Some other ->
   JSMap.get other (LRUCache.cache (LRUCache.set key val this)) = None) /\
  (JSMap.has key (LRUCache.cache this) = true \/
   JsNumber.geb (JsNumber.ofZ (JSMap.size (LRUCache.cache this)))
     (LRUCache.max this) = false \/
   LRUCache.first this <> Some other ->
   JSMap.get other (LRUCache.cache (LRUCache.set key val this)) =
   JSMap.get other (LRUCache.cache this)).
Proof.
  intros Hother. rewrite (set_lookup_other key other val this Hother). split.
  - intros -> -> ->. cbn [negb andb]. now rewrite String.eqb_refl.
  - intros [-> | [-> | Hfirst]]; cbn [negb andb]; try reflexivity.
    + now rewrite andb_false_r.
    + destruct (LRUCache.first this) as [oldest|]; [|now rewrite andb_false_r].
      destruct (String.eqb_spec oldest other) as [->|_]; [congruence|].
      now rewrite andb_false_r.
Qed.

(** The first key after a [set] is the key set only in a cache of one
    entry. *)
Lemma first_after_set key val this :
  LRUCache.first (LRUCache.set key val this) = Some key ->
  JSMap.size (LRUCache.cache (LRUCache.set key val this)) = 1%Z.
Proof.
  destruct (set_puts_last key val this) as (kept & Hcache & Hfresh & _).
  unfold LRUCache.first, JSMap.size. rewrite Hcache.
  destruct kept as [|[k v] rest]; [reflexivity|].
  cbn [app JSMap.keys map fst]. intros [= ->].
  unfold JSMap.has in Hfresh. cbn [existsb fst] in Hfresh.
  now rewrite String.eqb_refl in Hfresh.
Qed.

(** A capacity of two or more is not reached by one entry. *)
Lemma geb_one_below_two (max : JsNumber.t) :
  JsNumber.geb max (JsNumber.ofZ 2) = true ->
  JsNumber.geb (JsNumber.ofZ 1) max = false.
Proof.
  destruct max as [q| | |]; cbn [JsNumber.geb JsNumber.ofZ]; try discriminate;
    [|reflexivity].
  intros Htwo. apply Qle_bool_iff in Htwo.
  destruct (Qle_bool q (inject_Z 1)) eqn:Hone; [|reflexivity].
  apply Qle_bool_iff in Hone.
  pose proof (Qle_trans _ _ _ Htwo Hone) as H. rewrite <- Zle_Qle in H. lia.
Qed.

(** X14: in a cache of capacity two or more ([max >= 2]), the entry of a
    [set] is still there after the next [set] of another key. *)
Theorem recent_key_survives_next_set key other val val' this :
  JsNumber.geb (LRUCache.max this) (JsNumber.ofZ 2) = true ->
  other <> key ->
  fst (LRUCache.get truthy key
         (LRUCache.set other val' (LRUCache.set key val this))) = Some val.
Proof.
  intros Hmax Hother. rewrite get_returns_item.
  rewrite set_lookup_other by congruence.
  assert (Hstored :
            JSMap.get key (LRUCache.cache (LRUCache.set key val this)) = Some val).
  { unfold LRUCache.set. cbn [LRUCache.cache]. apply JSMap_get_set_same. }
  rewrite Hstored.
  destruct (negb _); cbn [andb]; [|reflexivity].
  destruct (LRUCache.first (LRUCache.set key val this)) as [oldest|] eqn:Hfirst;
    [|now rewrite andb_false_r].
  destruct (String.eqb_spec oldest key) as [->|_]; [|now rewrite andb_false_r].
  apply first_after_set in Hfirst. rewrite Hfirst.
  cbn [LRUCache.max LRUCache.set]. now rewrite (geb_one_below_two _ Hmax).
Qed.


End CacheContents.

(** ** Recency, as long as truthy values only are stored *)
Section CacheRecency.

Context {T : Type}.
Variable truthy : T -> bool.
Implicit Types (this : LRUCache.LRUCache T) (key other : string) (val : T).

(** X16: in a cache of capacity [max >= 1] that has been stored truthy
    values only, a [set] of a key that is not stored, when the cache holds
    [max] entries, evicts the least recently used key, and that key alone:
    the other keys stay in their order and the new key is put last. *)
Theorem set_evicts_least_recently_used (max : Z)
  (history : list (LRUCache.Operation T)) key val :
  (1 <= max)%Z ->
  LRUCache.storesTruthy truthy history ->
  let this :=
    LRUCache.run truthy history (LRUCache.new (Some (JsNumber.ofZ max))) in
  JSMap.has key (LRUCache.cache this) = false ->
  JSMap.size (LRUCache.cache this) = max ->
  exists oldest others,
    JSMap.keys (LRUCache.cache this) = oldest :: others /\
    LRUCache.leastRecentlyUsed history this = Some oldest /\
    JSMap.keys (LRUCache.cache (LRUCache.set key val this)) = others ++ [key] /\
    JSMap.get oldest (LRUCache.cache (LRUCache.set key val this)) = None.
Proof.
  intros Hmax Hstores this Hfresh Hfull.
  destruct (cache_bounded_and_evicts_oldest truthy max history key val Hmax Hstores)
    as [_ Hevicts].
  destruct (Hevicts Hfresh Hfull) as (oldest & others & Hkeys & Hlru & Hafter).
  exists oldest, others. repeat split; try assumption.
  destruct (first_is_least_recently_used truthy (Some (JsNumber.ofZ max)) history
              Hstores) as [_ Hnodup].
  subst this. rewrite Hkeys in Hnodup.
  apply NoDup_cons_iff in Hnodup as [Hnotin _].
  match goal with
  | |- JSMap.get oldest ?c = None =>
      pose proof (JSMap_get_has oldest c) as Hhas; destruct (JSMap.get oldest c)
  end; [|reflexivity].
  exfalso. apply JSMap_has_keys in Hhas.
  rewrite Hafter in Hhas. apply in_app_or in Hhas as [Hin|[<-|[]]].
  - contradiction.
  - rewrite (proj2 (JSMap_has_keys key _)) in Hfresh; [discriminate|].
    rewrite Hkeys. now left.
Qed.

(** With distinct keys, a map of two entries or more keeps an entry when a
    key is deleted, and no entry left is under that key. *)
Lemma delete_leaves_another key (m : JSMap.t T) :
  NoDup (JSMap.keys m) ->
  (2 <= length m)%nat ->
  exists k v rest, JSMap.delete key m = (k, v) :: rest /\ k <> key.
Proof.
  intros Hnodup Hsize.
  assert (Hin : forall entry, In entry (JSMap.delete key m) -> fst entry <> key).
  { intros entry H. apply filter_In in H as [_ H].
    destruct (String.eqb_spec (fst entry) key); [discriminate|assumption]. }
  destruct (JSMap.delete key m) as [|[k v] rest] eqn:Hdelete.
  - exfalso.
    destruct m as [|[k1 v1] [|[k2 v2] rest]]; cbn [length] in Hsize; try lia.
    cbn [JSMap.keys map fst] in Hnodup.
    apply NoDup_cons_iff in Hnodup as [Hnotin _].
    unfold JSMap.delete in Hdelete. cbn [filter fst] in Hdelete.
    destruct (String.eqb_spec k1 key) as [->|_]; cbn [negb] in Hdelete;
      [|discriminate].
    destruct (String.eqb_spec k2 key) as [->|_]; cbn [negb] in Hdelete;
      [|discriminate].
    apply Hnotin. now left.
  - exists k, v, rest. split; [reflexivity|].
    apply (Hin (k, v)). now left.
Qed.

(** X17: in a cache that has been stored truthy values only and holds two
    entries or more, a key that has just been read is not the one the next
    [set] of another key evicts: its value is still returned afterwards. *)
Theorem get_refreshes_recency (max : option JsNumber.t)
  (history : list (LRUCache.Operation T)) key other val val' :
  LRUCache.storesTruthy truthy history ->
  let this := LRUCache.run truthy history (LRUCache.new max) in
  JSMap.get key (LRUCache.cache this) = Some val ->
  other <> key ->
  (2 <= JSMap.size (LRUCache.cache this))%Z ->
  fst (LRUCache.get truthy key
         (LRUCache.set other val' (snd (LRUCache.get truthy key this)))) = Some val.
Proof.
  intros Hstores this Hget Hother Hsize.
  destruct (run_ordered truthy history [] (LRUCache.new max)) as [Hsorted Htruthy].
  { split; constructor. }
  { exact Hstores. }
  cbn [app] in Hsorted. fold this in Hsorted, Htruthy.
  assert (Hval : truthy val = true).
  { rewrite Forall_forall in Htruthy.
    exact (Htruthy _ (JSMap_get_In _ _ _ Hget)). }
  assert (Hread : snd (LRUCache.get truthy key this) =
                  {| LRUCache.max := LRUCache.max this;
                     LRUCache.cache :=
                       JSMap.delete key (LRUCache.cache this) ++ [(key, val)] |}).
  { unfold LRUCache.get. rewrite Hget, Hval. cbn [snd].
    now rewrite JSMap_set_fresh by apply JSMap_has_delete. }
  rewrite get_returns_item, set_lookup_other by congruence.
  rewrite Hread. cbn [LRUCache.cache].
  destruct (delete_leaves_another key (LRUCache.cache this))
    as (k & v & rest & Hdelete & Hk).
  { exact (oldestFirst_NoDup _ _ Hsorted). }
  { unfold JSMap.size in Hsize. lia. }
  assert (Hstill :
            JSMap.get key (JSMap.delete key (LRUCache.cache this) ++ [(key, val)])
            = Some val).
  { rewrite <- (JSMap_set_fresh key val) by apply JSMap_has_delete.
    apply JSMap_get_set_same. }
  rewrite Hstill.
  unfold LRUCache.first. cbn [LRUCache.cache]. rewrite Hdelete.
  cbn [app JSMap.keys map fst].
  destruct (String.eqb_spec k key) as [->|_]; [congruence|].
  now rewrite andb_false_r.
Qed.

End CacheRecency.

(** * Instances of the further properties *)

(** X3 on a first deployment. *)
Lemma deployLambda_success_means_published_fnA :
  let client :=
    Scripted.client (Scripted.absent "fn-A" [Scripted.latest; Scripted.previous]) in
  fst (deployLambda client Scripted.config Scripted.store "fn-A" Scripted.userCode
         Scripted.start) = inr tt /\
  exists zipFile,
    fst (createZipFile (Remote := unit) Scripted.store Scripted.userCode
           Scripted.start) = inr zipFile.
Proof.
  intros client. split; [reflexivity|].
  destruct (deployLambda_success_means_published client Scripted.config
              Scripted.store "fn-A" Scripted.userCode Scripted.start eq_refl)
    as (zipFile & Hzip & _).
  exists zipFile. exact Hzip.
Defined.

(** X4 on a deployment whose configuration update is rejected. *)
Lemma deployLambda_failure_means_unpublished_fnC :
  let current :=
    Scripted.configuration "fn-C" "nodejs14.x" (Scripted.attached Scripted.latest) in
  let client :=
    Scripted.client
      (Scripted.deployedBusy current [Scripted.latest; Scripted.previous]) in
  let run :=
    deployLambda client Scripted.config Scripted.store "fn-C" Scripted.userCode
      Scripted.start in
  fst run = inl Scripted.conflict /\
  Forall
    (fun e =>
       Lambda.isCreateFunction (request e) || Lambda.isUpdateFunctionCode (request e)
       = true ->
       acknowledged e = false)
    (sentSince Scripted.start (snd run)).
Proof.
  intros current client run. split; [reflexivity|].
  exact (deployLambda_failure_means_unpublished client Scripted.config
           Scripted.store "fn-C" Scripted.userCode Scripted.start
           Scripted.conflict eq_refl).
Defined.

(** X5 on a first deployment. *)
Lemma deployLambda_logs_size_fnA :
  let client :=
    Scripted.client (Scripted.absent "fn-A" [Scripted.latest; Scripted.previous]) in
  fst (createZipFile (Remote := unit) Scripted.store Scripted.userCode Scripted.start)
    = inr (Scripted.packaged Scripted.userCode) /\
  length (logged (snd (deployLambda client Scripted.config Scripted.store "fn-A"
                         Scripted.userCode Scripted.start))) = 2.
Proof.
  intros client. split; [reflexivity|].
  rewrite (deployLambda_logs_size client Scripted.config Scripted.store "fn-A"
             Scripted.userCode (Scripted.packaged Scripted.userCode)
             Scripted.start eq_refl).
  reflexivity.
Defined.

(** X6 on a function on another runtime. *)
Lemma updateLambda_reconfigures_iff_differs_fnC :
  let current :=
    Scripted.configuration "fn-C" "nodejs14.x" (Scripted.attached Scripted.latest) in
  let client :=
    Scripted.client (Scripted.deployed current [Scripted.latest; Scripted.previous]) in
  Lambda.Layers current <> Some [] /\
  (differsFromDesired current (Some Scripted.latest) <->
   In (reconfigureRequest Scripted.config "fn-C" (Some Scripted.latest))
     (requestsSince Scripted.start
        (snd (updateLambda client Scripted.config "fn-C" Scripted.archive
                Scripted.start)))).
Proof.
  intros current client.
  assert (Hlayers : Lambda.Layers current <> Some []) by discriminate.
  split; [exact Hlayers|].
  exact (proj1
    (updateLambda_reconfigures_iff_differs client Scripted.config "fn-C"
       Scripted.archive Scripted.start
       (Scripted.layerVersions [Scripted.latest; Scripted.previous]) tt tt
       (Some Scripted.latest) current eq_refl eq_refl eq_refl Hlayers)).
Defined.

(** X7 on a function with an empty list of layers. *)
Lemma updateLambda_stops_after_queries_iff_fnB :
  let current := Scripted.configuration "fn-B" "nodejs16.x" (Some []) in
  let client :=
    Scripted.client (Scripted.deployed current [Scripted.latest; Scripted.previous]) in
  Lambda.getFunctionConfiguration client
    {| Lambda.GetFunctionConfiguration.FunctionName := "fn-B" |} tt =
    (inr current, tt) /\
  requestsSince Scripted.start
    (snd (updateLambda client Scripted.config "fn-B" Scripted.archive
            Scripted.start)) =
  [listRequest Scripted.config; configurationRequest "fn-B"].
Proof.
  intros current client. split; [reflexivity|].
  apply (updateLambda_stops_after_queries_iff client Scripted.config "fn-B"
           Scripted.archive Scripted.start
           (Scripted.layerVersions [Scripted.latest; Scripted.previous]) tt tt
           (Some Scripted.latest) current eq_refl eq_refl eq_refl).
  repeat split.
Defined.

(** X8 on a platform that rejects configuration updates. *)
Lemma updateLambda_rejected_reconfiguration_fnC :
  let current :=
    Scripted.configuration "fn-C" "nodejs14.x" (Scripted.attached Scripted.latest) in
  let client :=
    Scripted.client
      (Scripted.deployedBusy current [Scripted.latest; Scripted.previous]) in
  configurationDiffers current (Some Scripted.latest) = inr true /\
  fst (updateLambda client Scripted.config "fn-C" Scripted.archive Scripted.start) =
    inl Scripted.conflict.
Proof.
  intros current client. split; [reflexivity|].
  rewrite (updateLambda_rejected_reconfiguration client Scripted.config "fn-C"
             Scripted.archive Scripted.start
             (Scripted.layerVersions [Scripted.latest; Scripted.previous]) tt tt tt
             (Some Scripted.latest) current Scripted.conflict
             eq_refl eq_refl eq_refl eq_refl eq_refl).
  reflexivity.
Defined.

(** X9 on an answer without the list. *)
Lemma createLambda_absent_version_list_fnA :
  let client := Scripted.client (Scripted.unlisted "fn-A") in
  Lambda.ListLayerVersions.LayerVersions
    {| Lambda.ListLayerVersions.LayerVersions := None |} = None /\
  requestsSince Scripted.start
    (snd (createLambda client Scripted.config "fn-A" Scripted.archive
            Scripted.start)) =
  [listRequest Scripted.config;
   createRequest Scripted.config "fn-A" Scripted.archive None].
Proof.
  intros client. split; [reflexivity|].
  exact (proj2
    (createLambda_absent_version_list client Scripted.config "fn-A"
       Scripted.archive Scripted.start
       {| Lambda.ListLayerVersions.LayerVersions := None |} tt eq_refl eq_refl)).
Defined.

(** X10 on a function that exists but cannot be read. *)
Lemma deployLambda_probe_rejected_then_creation_rejected_hidden :
  let client :=
    Scripted.client (Scripted.hidden [Scripted.latest; Scripted.previous]) in
  Lambda.createFunction client
    (createFunctionInput Scripted.config "fn-A"
       (Scripted.packaged Scripted.userCode) (Some Scripted.latest)) tt =
    (inl Scripted.conflict, tt) /\
  fst (deployLambda client Scripted.config Scripted.store "fn-A" Scripted.userCode
         Scripted.start) = inl Scripted.conflict.
Proof.
  intros client. split; [reflexivity|].
  exact (proj1
    (deployLambda_probe_rejected_then_creation_rejected client Scripted.config
       Scripted.store "fn-A" Scripted.userCode
       (Scripted.packaged Scripted.userCode) Scripted.start
       (mkJsError "AccessDeniedException" "Not authorized") Scripted.conflict
       (Scripted.layerVersions [Scripted.latest; Scripted.previous])
       (Some Scripted.latest) tt tt tt
       eq_refl eq_refl eq_refl eq_refl eq_refl)).
Defined.

(** A capacity need not be an integer: a cache made with [new LRUCache(1.5)]
    holds two entries after two sets, a cache made with [new LRUCache(NaN)]
    or [new LRUCache(Infinity)] never evicts, and a cache made with
    [new LRUCache(0)] holds the entry of its last set. *)
Example fractional_capacity_holds_two :
  let history :=
    [LRUCache.OpSet "a" 1%Z; LRUCache.OpSet "b" 2%Z; LRUCache.OpSet "c" 3%Z] in
  let keysAfter max :=
    JSMap.keys (LRUCache.cache
                  (LRUCache.run LRUCache.truthyNumber history (LRUCache.new (Some max)))) in
  keysAfter (JsNumber.Finite (3 # 2)) = ["b"; "c"] /\
  keysAfter JsNumber.NaN = ["a"; "b"; "c"] /\
  keysAfter JsNumber.PosInfinity = ["a"; "b"; "c"] /\
  keysAfter (JsNumber.ofZ 0) = ["c"] /\
  keysAfter JsNumber.NegInfinity = ["c"].
Proof. repeat split. Qed.

(** X13 on a full cache of two entries. *)
Lemma set_keeps_other_keys_full :
  let number := LRUCache.truthyNumber in
  let this :=
    LRUCache.run number [LRUCache.OpSet "a" 1%Z; LRUCache.OpSet "b" 2%Z]
      (LRUCache.new (Some (JsNumber.ofZ 2))) in
  "a" <> "c" /\
  LRUCache.first this = Some "a" /\
  JSMap.get "a" (LRUCache.cache (LRUCache.set "c" 3%Z this)) = None.
Proof.
  intros number this.
  assert (Hother : "a" <> "c") by discriminate.
  split; [exact Hother|]. split; [reflexivity|].
  exact (proj1 (set_keeps_other_keys "c" "a" 3%Z this Hother)
           eq_refl eq_refl eq_refl).
Defined.

(** X14 on a cache of capacity two that holds a falsy value. *)
Lemma recent_key_survives_next_set_two :
  let number := LRUCache.truthyNumber in
  let this :=
    LRUCache.run number [LRUCache.OpSet "a" 1%Z; LRUCache.OpSet "b" 2%Z]
      (LRUCache.new (Some (JsNumber.ofZ 2))) in
  JsNumber.geb (LRUCache.max this) (JsNumber.ofZ 2) = true /\
  fst (LRUCache.get number "c"
         (LRUCache.set "d" 4%Z (LRUCache.set "c" 0%Z this))) = Some 0%Z.
Proof.
  intros number this.
  assert (Hmax : JsNumber.geb (LRUCache.max this) (JsNumber.ofZ 2) = true)
    by reflexivity.
  split; [exact Hmax|].
  apply (recent_key_survives_next_set number "c" "d" 0%Z 4%Z this Hmax).
  discriminate.
Defined.

(** X16 on a full cache whose first key was read last. *)
Lemma set_evicts_least_recently_used_after_read :
  let number := LRUCache.truthyNumber in
  let history :=
    [LRUCache.OpSet "a" 1%Z; LRUCache.OpSet "b" 2%Z; LRUCache.OpGet "a"] in
  let this :=
    LRUCache.run number history (LRUCache.new (Some (JsNumber.ofZ 2))) in
  LRUCache.storesTruthy number history /\
  exists oldest others,
    JSMap.keys (LRUCache.cache this) = oldest :: others /\
    JSMap.get oldest (LRUCache.cache (LRUCache.set "c" 3%Z this)) = None.
Proof.
  intros number history this.
  assert (Hstores : LRUCache.storesTruthy number history).
  { repeat constructor. }
  split; [exact Hstores|].
  destruct (set_evicts_least_recently_used number 2%Z history "c" 3%Z)
    as (oldest & others & Hkeys & _ & _ & Hgone);
    [lia|exact Hstores|reflexivity|reflexivity|].
  exists oldest, others. split; [exact Hkeys|exact Hgone].
Defined.

(** X17 on the same cache: the key read survives the next [set]. *)
Lemma get_refreshes_recency_after_read :
  let number := LRUCache.truthyNumber in
  let history := [LRUCache.OpSet "a" 1%Z; LRUCache.OpSet "b" 2%Z] in
  let this :=
    LRUCache.run number history (LRUCache.new (Some (JsNumber.ofZ 2))) in
  LRUCache.storesTruthy number history /\
  fst (LRUCache.get number "a"
         (LRUCache.set "c" 3%Z (snd (LRUCache.get number "a" this)))) = Some 1%Z.
Proof.
  intros number history this.
  assert (Hstores : LRUCache.storesTruthy number history).
  { repeat constructor. }
  split; [exact Hstores|].
  apply (get_refreshes_recency number (Some (JsNumber.ofZ 2)) history "a" "c"
           1%Z 3%Z Hstores).
  - reflexivity.
  - discriminate.
  - cbn. lia.
Defined.

(** X18 on a deployment whose configuration update is rejected. *)
Lemma deployLambda_fails_fast_fnC :
  let current :=
    Scripted.configuration "fn-C" "nodejs14.x" (Scripted.attached Scripted.latest) in
  let client :=
    Scripted.client
      (Scripted.deployedBusy current [Scripted.latest; Scripted.previous]) in
  let run :=
    deployLambda client Scripted.config Scripted.store "fn-C" Scripted.userCode
      Scripted.start in
  fst run = inl Scripted.conflict /\
  Forall (fun e => acknowledged e = true)
    (removelast (tl (sentSince Scripted.start (snd run)))).
Proof.
  intros current client run. split; [reflexivity|].
  destruct (deployLambda_fails_fast client Scripted.config Scripted.store "fn-C"
              Scripted.userCode Scripted.start Scripted.conflict eq_refl)
    as [[Hnone _] | [Hall _]].
  - discriminate Hnone.
  - exact Hall.
Defined.
